(** * HTW_V2H_SS25: profile helpers (emobpy) and the case-1 energy system (oemof)

    A shallow embedding of the Python sources

    - [models/emobpy/save_profiles.py]
    - [models/emobpy/calculate_consumption.py]
    - [models/emobpy/create_rules.py]
    - [models/oemof/case1_es_charger_limited_BEV_dumb.py]

    Python dictionaries are finite maps ([gmap]); a loop over [d.items()]
    visits [map_to_list d], so the order of iteration is the map's and not
    the order of insertion, which no statement below depends on.  Objects
    that are shared and updated in place live in an explicit store, and code
    that prints, writes or raises runs in a small state-and-exception monad.
    Python floats are idealised as rationals ([Q]).  The calls the case-1
    script makes into oemof and pyomo ([Model(es)], [model.solve],
    [es.dump]) and the calls [create_emobpy_rules_yaml] makes to the file
    system are parameters that say whether the call returns or which
    exception it raises. *)

From Stdlib Require Import ZArith QArith String Ascii List Lia.
From stdpp Require Import base gmap strings list fin_maps.

Open Scope string_scope.
Open Scope list_scope.

(** ** Python runtime: exceptions and the effect monad *)

Module Py.

(** The exceptions the modelled code can raise. *)
Inductive exn : Type :=
| KeyError (key : string)
| TypeError (what : string)
| AttributeError (what : string)
| RuntimeError (msg : string)
| SystemExit
| External (name : string).
    (* raised inside a library call: the name of its class, which is none
       of the classes above and derives from none of them *)

Inductive result (A : Type) : Type :=
| Ok (a : A)
| Raise (e : exn).
Arguments Ok {A} a.
Arguments Raise {A} e.

(** A computation over a state [S]; the state reached when an exception is
    raised is kept (what was printed stays printed). *)
Definition M (S A : Type) : Type := S → result A * S.

Definition ret {S A} (a : A) : M S A := λ s, (Ok a, s).

Definition bind {S A B} (m : M S A) (k : A → M S B) : M S B :=
  λ s, match m s with
       | (Ok a, s') => k a s'
       | (Raise e, s') => (Raise e, s')
       end.

Definition raise {S A} (e : exn) : M S A := λ s, (Raise e, s).
Definition get {S} : M S S := λ s, (Ok s, s).
Definition modify {S} (f : S → S) : M S unit := λ s, (Ok tt, f s).

(** [try: body except <handler>]: the handler says which exceptions it
    catches by returning [Some]. *)
Definition try_except {S A} (body : M S A) (handler : exn → option (M S A))
  : M S A :=
  λ s, match body s with
       | (Ok a, s') => (Ok a, s')
       | (Raise e, s') =>
           match handler e with
           | Some h => h s'
           | None => (Raise e, s')
           end
       end.

(** [for x in l: acc = body x acc], left to right, stopping at the first
    exception. *)
Fixpoint for_each {S A B} (body : A → B → M S B) (l : list A) (acc : B)
  : M S B :=
  match l with
  | [] => ret acc
  | x :: l' => bind (body x acc) (for_each body l')
  end.

(** [d[key]] on a dictionary. *)
Definition getitem {S V} (d : gmap string V) (key : string) : M S V :=
  match d !! key with
  | Some v => ret v
  | None => raise (KeyError key)
  end.

(** [key in d]. *)
Definition contains {V} (key : string) (d : gmap string V) : bool :=
  match d !! key with Some _ => true | None => false end.

End Py.

Import Py.

(** [x ← m; k] and [m ;; k] are stdpp's notations for sequencing. *)
#[export] Instance M_ret {S} : MRet (M S) := λ A, @Py.ret S A.
#[export] Instance M_bind {S} : MBind (M S) := λ A B k m, @Py.bind S A B m k.

(** A time series is a column of numbers; a [DataFrame] is addressed by
    column name. *)
Abbreviation Series := (list Q).
Abbreviation DataFrame := (gmap string (list Q)).

(** The values found in the profile database. *)
#[warnings="-register-all"]
Inductive pyval : Type :=
| PyNone
| PyStr (s : string)
| PyInt (z : Z)
| PyFrame (df : DataFrame)
| PyDict (d : gmap string pyval).

(** ** save_profiles.py *)

Module SaveProfiles.

(** [isinstance(v, dict) and v.get("kind") == kind] *)
Definition has_kind (kind : string) (v : pyval) : bool :=
  match v with
  | PyDict d =>
      match d !! "kind" with
      | Some (PyStr s) => String.eqb s kind
      | _ => false
      end
  | _ => false
  end.

(** [get_consumption_profiles]; [db_db] is the [db.db] dictionary of the
    loaded [DataBase]. *)
Definition get_consumption_profiles (db_db : gmap string pyval)
  : gmap string pyval :=
  filter (λ kv, has_kind "consumption" kv.2 = true) db_db.

(** Standard output, oldest line first. *)
Abbreviation stdout := (list string).

Definition print (line : string) : M stdout unit :=
  modify (λ out, out ++ [line]).

Definition warn_no_timeseries (key : string) : string :=
  "⚠️ 'timeseries' not found in profile '" +:+ key +:+ "'.".

Definition no_timeseries_at_all : string :=
  "❌ No 'timeseries' found in any profile. Please ensure consumption was calculated.".

Definition timeserie_step (item : string * gmap string pyval)
    (timeseries_data : gmap string pyval) : M stdout (gmap string pyval) :=
  let '(key, profile) := item in
  if contains "timeseries" profile then
    ts ← getitem profile "timeseries";
    ret (<[key := ts]> timeseries_data)
  else
    print (warn_no_timeseries key);;
    ret timeseries_data.

Definition get_timeserie_from_consumption_profiles
    (consumption_profiles : gmap string (gmap string pyval))
  : M stdout (gmap string pyval) :=
  timeseries_data ←
    for_each timeserie_step (map_to_list consumption_profiles) ∅;
  (if bool_decide (size timeseries_data = 0)
   then print no_timeseries_at_all
   else ret tt);;
  ret timeseries_data.

(** What [save_timeseries_to_csv] does to the outside world. *)
Record world : Type := World {
  csv_written : list (string * DataFrame);   (* [df.to_csv(name)] calls *)
  printed : list string
}.

(** [df.to_csv(filename, index=True)], as a call that returns: [world]
    records the calls made, not what is on disk afterwards. *)
Definition to_csv (df : DataFrame) (filename : string) : M world unit :=
  modify (λ w, World (csv_written w ++ [(filename, df)]) (printed w)).

Definition print_w (line : string) : M world unit :=
  modify (λ w, World (csv_written w) (printed w ++ [line])).

Section Save.
(** [os.path.join] of the platform the script runs on. *)
Variable os_path_join : string → string → string.

(** One round of the loop; the local variable [filename] is the
    accumulator, reassigned in every round. *)
Definition save_step (path : string) (item : string * DataFrame)
    (filename : string) : M world string :=
  let '(profile, df) := item in
  let filename := os_path_join path (profile +:+ ".csv") in
  to_csv df filename;;
  print_w ("✅ Saved: " +:+ filename);;
  ret filename.

Definition save_timeseries_to_csv (timeseries_data : gmap string DataFrame)
    (path : string) (filename : string) : M world unit :=
  _ ← for_each (save_step path) (map_to_list timeseries_data) filename;
  ret tt.
End Save.

End SaveProfiles.

(** ** calculate_consumption.py *)

Module CalculateConsumption.

Definition get_driving_profiles (db_db : gmap string pyval)
  : gmap string pyval :=
  filter (λ kv, SaveProfiles.has_kind "driving" kv.2 = true) db_db.

Definition get_consumption_profiles (db_db : gmap string pyval)
  : gmap string pyval :=
  filter (λ kv, SaveProfiles.has_kind "consumption" kv.2 = true) db_db.

End CalculateConsumption.

(** ** create_rules.py *)

Module CreateRules.

(** Dictionaries are objects: they live in a store and are passed around by
    reference, so that updating one in place would be visible through every
    reference to it.  The identity of an object is its index in the store;
    the store only grows. *)
Abbreviation loc := nat.

Inductive value : Type :=
| VNone
| VBool (b : bool)
| VNum (q : Q)
| VStr (s : string)
| Ref (l : loc).

Inductive obj : Type :=
| ODict (d : gmap string value)
| OList (l : list value).

Abbreviation dict := (gmap string value).
Abbreviation store := (list obj).

(** The dictionary a value refers to, if it refers to one. *)
Definition deref_dict (h : store) (v : value) : option dict :=
  match v with
  | Ref l => match h !! l with
             | Some (ODict d) => Some d
             | _ => None
             end
  | _ => None
  end.

(** A dict display [{...}] allocates a new object. *)
Definition new_dict (d : dict) : M store loc :=
  λ h, (Ok (length h), h ++ [ODict d]).

(** Looking up the bound method [v.get]: only dictionaries have it. *)
Definition get_method (v : value) : M store dict :=
  λ h, match deref_dict h v with
       | Some d => (Ok d, h)
       | None => (Raise (AttributeError "get"), h)
       end.

(** [v.get(key, {})]: the method is looked up, the default [{}] is
    built, then the call is made. *)
Definition get_or_empty (v : value) (key : string) : M store value :=
  d ← get_method v;
  empty ← new_dict ∅;
  mret (default (Ref empty) (d !! key)).

(** [**src] inside the dict display under construction at [target]: the
    entries of [src] are written into [target], overwriting. *)
Definition dict_update (target : loc) (src : value) : M store unit :=
  λ h, match deref_dict h src, h !! target with
       | Some d, Some (ODict t) => (Ok tt, <[target := ODict (d ∪ t)]> h)
       | _, _ => (Raise (TypeError "object is not a mapping"), h)
       end.

(** [{**base_day_rules, **group_specs.get(day, {})}] *)
Definition merged_day (base_day_rules group_specs : value) (day : string)
  : M store value :=
  merged ← new_dict ∅;
  dict_update merged base_day_rules;;
  specific ← get_or_empty group_specs day;
  dict_update merged specific;;
  mret (Ref merged).

Definition get_rules_for_group (group : string)
    (specifics_rules base_day_rules : value) : M store value :=
  group_specs ← get_or_empty specifics_rules group;
  weekday ← merged_day base_day_rules group_specs "weekday";
  weekend ← merged_day base_day_rules group_specs "weekend";
  rules ← new_dict {[ "weekday" := weekday; "weekend" := weekend ]};
  mret (Ref rules).

(** The group-specific rules of [group] for [day] as found in the store,
    empty when the group or the day has none. *)
Definition group_day_rules (h : store) (specifics : dict)
    (group day : string) : dict :=
  match specifics !! group with
  | Some g =>
      match deref_dict h g with
      | Some gd =>
          match gd !! day with
          | Some v => default ∅ (deref_dict h v)
          | None => ∅
          end
      | None => ∅
      end
  | None => ∅
  end.

(** The entry of [group], when there is one, is a dictionary whose
    ["weekday"] and ["weekend"] entries, when present, are dictionaries. *)
Definition group_well_formed (h : store) (specifics : dict)
    (group : string) : Prop :=
  ∀ g, specifics !! group = Some g →
    ∃ gd, deref_dict h g = Some gd
          ∧ ∀ day v, day ∈ ["weekday"; "weekend"] → gd !! day = Some v →
              is_Some (deref_dict h v).

End CreateRules.

(** ** case1_es_charger_limited_BEV_dumb.py *)

(** The members of pyomo's [SolverStatus] and [TerminationCondition]
    enumerations (pyomo.opt), with their printed form. *)

Module SolverStatus.
Inductive t : Type := ok | warning | error | aborted | unknown.

#[global] Instance status_eq_dec : EqDecision t.
Proof. solve_decision. Defined.

Definition str (s : t) : string :=
  match s with
  | ok => "ok" | warning => "warning" | error => "error"
  | aborted => "aborted" | unknown => "unknown"
  end.
End SolverStatus.

Module TerminationCondition.
Inductive t : Type :=
| unknown | maxTimeLimit | maxIterations | minFunctionValue | minStepLength
| globallyOptimal | locallyOptimal | feasible | optimal | maxEvaluations
| other | unbounded | infeasible | infeasibleOrUnbounded | invalidProblem
| intermediateNonInteger | noSolution | solverFailure | internalSolverError
| error | userInterrupt | resourceInterrupt | licensingProblems.

#[global] Instance termination_eq_dec : EqDecision t.
Proof. solve_decision. Defined.

Definition str (c : t) : string :=
  match c with
  | unknown => "unknown" | maxTimeLimit => "maxTimeLimit"
  | maxIterations => "maxIterations"
  | minFunctionValue => "minFunctionValue"
  | minStepLength => "minStepLength"
  | globallyOptimal => "globallyOptimal"
  | locallyOptimal => "locallyOptimal" | feasible => "feasible"
  | optimal => "optimal" | maxEvaluations => "maxEvaluations"
  | other => "other" | unbounded => "unbounded"
  | infeasible => "infeasible"
  | infeasibleOrUnbounded => "infeasibleOrUnbounded"
  | invalidProblem => "invalidProblem"
  | intermediateNonInteger => "intermediateNonInteger"
  | noSolution => "noSolution" | solverFailure => "solverFailure"
  | internalSolverError => "internalSolverError" | error => "error"
  | userInterrupt => "userInterrupt"
  | resourceInterrupt => "resourceInterrupt"
  | licensingProblems => "licensingProblems"
  end.
End TerminationCondition.

Module Case1.

(** *** The oemof.solph objects the script builds *)

(** [flows.Flow(fix=, max=, nominal_value=, variable_costs=)]; an argument
    that is not passed is [None]. *)
Record Flow : Type := MkFlow {
  fix_ : option Series;
  max_ : option Series;
  nominal_value : option Q;
  variable_costs : option Q
}.

(** [buses.Bus(label=, balanced=)] *)
Record Bus : Type := MkBus {
  bus_label : string;
  balanced : option bool
}.

(** The nodes added to the energy system.  [inputs] and [outputs] are the
    dict displays of the constructor call: bus, then flow. *)
Inductive Node : Type :=
| NBus (b : Bus)
| Source (label : string) (outputs : list (Bus * Flow))
| Sink (label : string) (inputs : list (Bus * Flow))
| GenericStorage (label : string) (inputs outputs : list (Bus * Flow))
    (nominal_storage_capacity min_storage_level max_storage_level
       initial_storage_level : Q)
    (fixed_losses_absolute : Series).

(** [pd.date_range(start=, periods=, freq=)] *)
Record DatetimeIndex : Type := date_range {
  index_start : string;
  index_periods : nat;
  index_freq : string
}.

(** [Model(es)]: the operational model compiled from the nodes the energy
    system holds at that moment. *)
Record OpModel : Type := Model_of {
  compiled_timeindex : DatetimeIndex;
  compiled_nodes : list Node
}.

(** What [processing.results] and [processing.meta_results] read back from
    a solved model. *)
Inductive ResultData : Type :=
| processing_results (m : OpModel)
| processing_meta_results (m : OpModel).

(** The answer of the solver: [results.solver]. *)
Record SolverResults : Type := MkSolverResults {
  status : SolverStatus.t;
  termination_condition : TerminationCondition.t;
  message : option string
}.

(** [es.results] is [None] until [model.solve] stores the solver's results
    object there; from then on it is that object together with the items
    the script has set on it. *)
Record EnergySystem : Type := MkEnergySystem {
  timeindex : DatetimeIndex;
  infer_last_interval : bool;
  nodes : list Node;
  results : option (SolverResults * gmap string ResultData)
}.

Definition es_add (new : list Node) (e : EnergySystem) : EnergySystem :=
  MkEnergySystem (timeindex e) (infer_last_interval e) (nodes e ++ new)
    (results e).

(** [es.results = solver_results], done by [model.solve]. *)
Definition es_with_results (r : SolverResults) (e : EnergySystem)
  : EnergySystem :=
  MkEnergySystem (timeindex e) (infer_last_interval e) (nodes e)
    (Some (r, ∅)).

(** [es.results[key] = v]; there is nothing to set an item on while
    [es.results] is [None]. *)
Definition es_set_result (key : string) (v : ResultData) (e : EnergySystem)
  : option EnergySystem :=
  match results e with
  | Some (r, items) =>
      Some (MkEnergySystem (timeindex e) (infer_last_interval e) (nodes e)
              (Some (r, <[key := v]> items)))
  | None => None
  end.

(** *** The [EnergySystemModel] instance

    An attribute that has not been assigned yet, or holds [None], is
    [None].  The attributes [results], [bus_df], [data], [ev_params],
    [BEV_timeseries], [electricity_dataframe], [solve_kwargs] and
    [cmdline_options] are set to [None] and never used; they are left
    out. *)
Record EnergySystemModel : Type := Self {
  dump_filename : string;
  start_date : option string;
  periods : option nat;
  freq : option string;
  time_index : option DatetimeIndex;
  es : option EnergySystem;
  model : option OpModel;
  df_timeseries : option DataFrame;
  BEV_state : option Series;
  PV_load : option Series;
  demand : option Series;
  BEV_consumption : option Series;
  BEV_charging : option Series;
  should_dump_results : option bool;
  solver : option string;
  solver_verbose : option bool;
  debug : option bool;
  grid_supply : option Q;
  wallbox_power : option Q
}.

(** [self.<attribute> = v], one setter per attribute. *)
Definition set_start_date (v : option string) (o : EnergySystemModel)
  : EnergySystemModel :=
  Self (dump_filename o) v (periods o) (freq o) (time_index o) (es o)
    (model o) (df_timeseries o) (BEV_state o) (PV_load o) (demand o)
    (BEV_consumption o) (BEV_charging o) (should_dump_results o) (solver o)
    (solver_verbose o) (debug o) (grid_supply o) (wallbox_power o).

Definition set_periods (v : option nat) (o : EnergySystemModel)
  : EnergySystemModel :=
  Self (dump_filename o) (start_date o) v (freq o) (time_index o) (es o)
    (model o) (df_timeseries o) (BEV_state o) (PV_load o) (demand o)
    (BEV_consumption o) (BEV_charging o) (should_dump_results o) (solver o)
    (solver_verbose o) (debug o) (grid_supply o) (wallbox_power o).

Definition set_freq (v : option string) (o : EnergySystemModel)
  : EnergySystemModel :=
  Self (dump_filename o) (start_date o) (periods o) v (time_index o) (es o)
    (model o) (df_timeseries o) (BEV_state o) (PV_load o) (demand o)
    (BEV_consumption o) (BEV_charging o) (should_dump_results o) (solver o)
    (solver_verbose o) (debug o) (grid_supply o) (wallbox_power o).

Definition set_time_index (v : option DatetimeIndex) (o : EnergySystemModel)
  : EnergySystemModel :=
  Self (dump_filename o) (start_date o) (periods o) (freq o) v (es o)
    (model o) (df_timeseries o) (BEV_state o) (PV_load o) (demand o)
    (BEV_consumption o) (BEV_charging o) (should_dump_results o) (solver o)
    (solver_verbose o) (debug o) (grid_supply o) (wallbox_power o).

Definition set_es (v : option EnergySystem) (o : EnergySystemModel)
  : EnergySystemModel :=
  Self (dump_filename o) (start_date o) (periods o) (freq o) (time_index o)
    v (model o) (df_timeseries o) (BEV_state o) (PV_load o) (demand o)
    (BEV_consumption o) (BEV_charging o) (should_dump_results o) (solver o)
    (solver_verbose o) (debug o) (grid_supply o) (wallbox_power o).

Definition set_model (v : option OpModel) (o : EnergySystemModel)
  : EnergySystemModel :=
  Self (dump_filename o) (start_date o) (periods o) (freq o) (time_index o)
    (es o) v (df_timeseries o) (BEV_state o) (PV_load o) (demand o)
    (BEV_consumption o) (BEV_charging o) (should_dump_results o) (solver o)
    (solver_verbose o) (debug o) (grid_supply o) (wallbox_power o).

Definition set_df_timeseries (v : option DataFrame) (o : EnergySystemModel)
  : EnergySystemModel :=
  Self (dump_filename o) (start_date o) (periods o) (freq o) (time_index o)
    (es o) (model o) v (BEV_state o) (PV_load o) (demand o)
    (BEV_consumption o) (BEV_charging o) (should_dump_results o) (solver o)
    (solver_verbose o) (debug o) (grid_supply o) (wallbox_power o).

Definition set_BEV_state (v : option Series) (o : EnergySystemModel)
  : EnergySystemModel :=
  Self (dump_filename o) (start_date o) (periods o) (freq o) (time_index o)
    (es o) (model o) (df_timeseries o) v (PV_load o) (demand o)
    (BEV_consumption o) (BEV_charging o) (should_dump_results o) (solver o)
    (solver_verbose o) (debug o) (grid_supply o) (wallbox_power o).

Definition set_PV_load (v : option Series) (o : EnergySystemModel)
  : EnergySystemModel :=
  Self (dump_filename o) (start_date o) (periods o) (freq o) (time_index o)
    (es o) (model o) (df_timeseries o) (BEV_state o) v (demand o)
    (BEV_consumption o) (BEV_charging o) (should_dump_results o) (solver o)
    (solver_verbose o) (debug o) (grid_supply o) (wallbox_power o).

Definition set_demand (v : option Series) (o : EnergySystemModel)
  : EnergySystemModel :=
  Self (dump_filename o) (start_date o) (periods o) (freq o) (time_index o)
    (es o) (model o) (df_timeseries o) (BEV_state o) (PV_load o) v
    (BEV_consumption o) (BEV_charging o) (should_dump_results o) (solver o)
    (solver_verbose o) (debug o) (grid_supply o) (wallbox_power o).

Definition set_BEV_consumption (v : option Series) (o : EnergySystemModel)
  : EnergySystemModel :=
  Self (dump_filename o) (start_date o) (periods o) (freq o) (time_index o)
    (es o) (model o) (df_timeseries o) (BEV_state o) (PV_load o) (demand o)
    v (BEV_charging o) (should_dump_results o) (solver o) (solver_verbose o)
    (debug o) (grid_supply o) (wallbox_power o).

Definition set_BEV_charging (v : option Series) (o : EnergySystemModel)
  : EnergySystemModel :=
  Self (dump_filename o) (start_date o) (periods o) (freq o) (time_index o)
    (es o) (model o) (df_timeseries o) (BEV_state o) (PV_load o) (demand o)
    (BEV_consumption o) v (should_dump_results o) (solver o)
    (solver_verbose o) (debug o) (grid_supply o) (wallbox_power o).

Definition set_should_dump_results (v : option bool) (o : EnergySystemModel)
  : EnergySystemModel :=
  Self (dump_filename o) (start_date o) (periods o) (freq o) (time_index o)
    (es o) (model o) (df_timeseries o) (BEV_state o) (PV_load o) (demand o)
    (BEV_consumption o) (BEV_charging o) v (solver o) (solver_verbose o)
    (debug o) (grid_supply o) (wallbox_power o).

Definition set_solver (v : option string) (o : EnergySystemModel)
  : EnergySystemModel :=
  Self (dump_filename o) (start_date o) (periods o) (freq o) (time_index o)
    (es o) (model o) (df_timeseries o) (BEV_state o) (PV_load o) (demand o)
    (BEV_consumption o) (BEV_charging o) (should_dump_results o) v
    (solver_verbose o) (debug o) (grid_supply o) (wallbox_power o).

Definition set_solver_verbose (v : option bool) (o : EnergySystemModel)
  : EnergySystemModel :=
  Self (dump_filename o) (start_date o) (periods o) (freq o) (time_index o)
    (es o) (model o) (df_timeseries o) (BEV_state o) (PV_load o) (demand o)
    (BEV_consumption o) (BEV_charging o) (should_dump_results o) (solver o)
    v (debug o) (grid_supply o) (wallbox_power o).

Definition set_debug (v : option bool) (o : EnergySystemModel)
  : EnergySystemModel :=
  Self (dump_filename o) (start_date o) (periods o) (freq o) (time_index o)
    (es o) (model o) (df_timeseries o) (BEV_state o) (PV_load o) (demand o)
    (BEV_consumption o) (BEV_charging o) (should_dump_results o) (solver o)
    (solver_verbose o) v (grid_supply o) (wallbox_power o).

Definition set_grid_supply (v : option Q) (o : EnergySystemModel)
  : EnergySystemModel :=
  Self (dump_filename o) (start_date o) (periods o) (freq o) (time_index o)
    (es o) (model o) (df_timeseries o) (BEV_state o) (PV_load o) (demand o)
    (BEV_consumption o) (BEV_charging o) (should_dump_results o) (solver o)
    (solver_verbose o) (debug o) v (wallbox_power o).

Definition set_wallbox_power (v : option Q) (o : EnergySystemModel)
  : EnergySystemModel :=
  Self (dump_filename o) (start_date o) (periods o) (freq o) (time_index o)
    (es o) (model o) (df_timeseries o) (BEV_state o) (PV_load o) (demand o)
    (BEV_consumption o) (BEV_charging o) (should_dump_results o) (solver o)
    (solver_verbose o) (debug o) (grid_supply o) v.

(** The instance together with what the run leaves outside of it. *)
Record state : Type := MkState {
  self : EnergySystemModel;
  logged : list string;                          (* [logging.info] *)
  printed : list string;                         (* [print] *)
  lp_files : list (string * OpModel);            (* [model.write] *)
  dumped : list (string * string * EnergySystem) (* [es.dump(dpath, filename)] *)
}.

Definition logging_info (msg : string) : M state unit :=
  modify (λ s, MkState (self s) (logged s ++ [msg]) (printed s)
                 (lp_files s) (dumped s)).

Definition print (line : string) : M state unit :=
  modify (λ s, MkState (self s) (logged s) (printed s ++ [line])
                 (lp_files s) (dumped s)).

Definition model_write (path : string) (m : OpModel) : M state unit :=
  modify (λ s, MkState (self s) (logged s) (printed s)
                 (lp_files s ++ [(path, m)]) (dumped s)).

(** [es.dump(dpath, filename)] when the library call goes through. *)
Definition es_dumped (dpath filename : string) (e : EnergySystem)
  : M state unit :=
  modify (λ s, MkState (self s) (logged s) (printed s) (lp_files s)
                 (dumped s ++ [(dpath, filename, e)])).

(** [self.<name> = v] *)
Definition assign (set : EnergySystemModel → EnergySystemModel)
  : M state unit :=
  modify (λ s, MkState (set (self s)) (logged s) (printed s) (lp_files s)
                 (dumped s)).

(** [self.<name>], used as an operand: an attribute that is unset or [None]
    cannot be used. *)
Definition attr {A} (name : string) (proj : EnergySystemModel → option A)
  : M state A :=
  s ← get;
  match proj (self s) with
  | Some a => mret a
  | None => raise (AttributeError name)
  end.

(** [exit()] *)
Definition exit {A} : M state A := raise SystemExit.

Definition nl : string := String "010"%char EmptyString.

Section Pipeline.

(** The table [get_timeseries] reads from the input file. *)
Variable input_table : DataFrame.
(** [Model(es)] is a library call that can fail (on a series shorter than
    the time index, for one): the exception it raises on an energy system,
    if any. *)
Variable Model_raises : EnergySystem → option exn.
(** [model.solve(solver=, solve_kwargs={"tee": })]: the external solver,
    which answers or raises. *)
Variable model_solve : OpModel → string → bool → result SolverResults.
(** [es.dump(dpath, filename)] is a library call that can fail (on a
    folder it cannot write to, for one): the exception it raises, if
    any. *)
Variable dump_raises : string → string → EnergySystem → option exn.
(** The folders the script derives from the working directory. *)
Variable dump_path : string.
Variable lp_file_path : string.

Definition get_timeseries : M state DataFrame := mret input_table.

Definition define_time_index : M state unit :=
  assign (set_start_date (Some "2022-01-01"));;
  assign (set_periods (Some 672%nat));;
  assign (set_freq (Some "15min"));;
  start ← attr "start_date" start_date;
  n ← attr "periods" periods;
  f ← attr "freq" freq;
  assign (set_time_index (Some (date_range start n f)));;
  idx ← attr "time_index" time_index;
  assign (set_es (Some (MkEnergySystem idx true [] None))).

Definition define_timeseries : M state unit :=
  logging_info "Import general timeseries";;
  df ← get_timeseries;
  assign (set_df_timeseries (Some df));;
  logging_info "Import BEV-timeseries";;
  df ← attr "df_timeseries" df_timeseries;
  col ← getitem df "BEV_at_home";
  assign (set_BEV_state (Some col));;
  col ← getitem df "PV_kW";
  assign (set_PV_load (Some col));;
  col ← getitem df "Load_kW";
  assign (set_demand (Some col));;
  col ← getitem df "consumption";
  assign (set_BEV_consumption (Some col));;
  col ← getitem df "charging_power_kW";
  assign (set_BEV_charging (Some col)).

(** [self.es.add(...)] *)
Definition self_es_add (new : list Node) : M state unit :=
  e ← attr "es" es;
  assign (set_es (Some (es_add new e))).

(** [series * 4] *)
Definition times4 (series : Series) : Series := (λ x, x * 4)%Q <$> series.

Definition create_oemof_objects : M state unit :=
  let PV_variable_costs := 0%Q in
  let Grid_variable_costs := 30%Q in
  let Grid_feed_in_costs := (-7.9)%Q in
  let Wallbox_variable_costs := 0%Q in
  let b_el := MkBus "electricity" None in
  let b_bev := MkBus "mobility" (Some true) in
  self_es_add [NBus b_el; NBus b_bev];;
  pv ← attr "PV_load" PV_load;
  self_es_add
    [Source "pv"
       [(b_el, MkFlow (Some pv) None (Some 1%Q) (Some PV_variable_costs))]];;
  at_home ← attr "BEV_state" BEV_state;
  wallbox_power ← attr "wallbox_power" wallbox_power;
  let wallbox :=
    Source "wallbox"
      [(b_bev, MkFlow None (Some at_home) (Some wallbox_power)
                 (Some Grid_variable_costs))] in
  self_es_add [wallbox];;
  grid_supply ← attr "grid_supply" grid_supply;
  let grid :=
    Source "grid-supply"
      [(b_el, MkFlow None None (Some grid_supply)
                (Some Grid_variable_costs))] in
  self_es_add [grid];;
  self_es_add
    [Sink "excess_bel"
       [(b_el, MkFlow None None None (Some Grid_feed_in_costs))]];;
  load ← attr "demand" demand;
  self_es_add
    [Sink "demand" [(b_el, MkFlow (Some load) None (Some 1%Q) None)]];;
  consumption ← attr "BEV_consumption" BEV_consumption;
  let BEV :=
    GenericStorage "BEV_Storage"
      [(b_bev, MkFlow None None None None)]
      [(b_bev, MkFlow None None None None)]
      45%Q 0.4%Q 0.95%Q 0.95%Q
      (times4 consumption) in
  self_es_add [BEV].

(** [Model(self.es)] *)
Definition oemof_Model (e : EnergySystem) : M state OpModel :=
  match Model_raises e with
  | Some x => raise x
  | None => mret (Model_of (timeindex e) (nodes e))
  end.

Definition optimise_energysystem : M state unit :=
  e ← attr "es" es;
  m ← oemof_Model e;
  assign (set_model (Some m));;
  dbg ← attr "debug" debug;
  if (dbg : bool) then
    logging_info ("Store lp-file in " +:+ lp_file_path +:+ ".");;
    m ← attr "model" model;
    model_write lp_file_path m
  else mret tt.

(** The text of the [RuntimeError] raised for a response that is not
    ([ok], [optimal]). *)
Definition failure_message (r : SolverResults) : string :=
  nl +:+ "❌ The energy system could not find a solution." +:+ nl
  +:+ "Solver status: " +:+ SolverStatus.str (status r) +:+ nl
  +:+ "Termination condition: "
  +:+ TerminationCondition.str (termination_condition r) +:+ nl
  +:+ "Message: " +:+ default "None" (message r) +:+ nl
  +:+ "⛔ Simulation aborted." +:+ nl.

(** [self.model.solve(solver=self.solver, solve_kwargs={"tee": ...})]; the
    model stores the solver's results object in the energy system it was
    built from, which is [self.es]. *)
Definition self_model_solve : M state SolverResults :=
  m ← attr "model" model;
  name ← attr "solver" solver;
  tee ← attr "solver_verbose" solver_verbose;
  match model_solve m name tee with
  | Ok r =>
      assign (λ o, match es o with
                   | Some e => set_es (Some (es_with_results r e)) o
                   | None => o
                   end);;
      mret r
  | Raise x => raise x
  end.

Definition solve_energysystem : M state unit :=
  try_except
    (results ← self_model_solve;
     let status := status results in
     let termination := termination_condition results in
     (if bool_decide (status ≠ SolverStatus.ok)
         || bool_decide (termination ≠ TerminationCondition.optimal)
      then raise (RuntimeError (failure_message results))
      else mret tt);;
     print "✅ The model was solved successfully.")
    (λ e, match e with
          | RuntimeError msg => Some (print msg;; exit)
          | _ => None
          end).

(** [self.es.results[key] = v] *)
Definition set_result_item (key : string) (v : ResultData) : M state unit :=
  e ← attr "es" es;
  match es_set_result key v e with
  | Some e' => assign (set_es (Some e'))
  | None =>
      raise (TypeError "'NoneType' object does not support item assignment")
  end.

Definition extract_results : M state unit :=
  m ← attr "model" model;
  set_result_item "main" (processing_results m);;
  m ← attr "model" model;
  set_result_item "meta" (processing_meta_results m).

(** [self.es.dump(dpath=, filename=)] *)
Definition es_dump (dpath filename : string) (e : EnergySystem)
  : M state unit :=
  match dump_raises dpath filename e with
  | Some x => raise x
  | None => es_dumped dpath filename e
  end.

Definition dump_results : M state unit :=
  should ← attr "should_dump_results" should_dump_results;
  if (should : bool) then
    e ← attr "es" es;
    s ← get;
    es_dump dump_path (dump_filename (self s)) e
  else mret tt.

Definition Model : M state unit :=
  logging_info "define_time_index";;
  define_time_index;;
  logging_info "define_timeseries";;
  define_timeseries;;
  logging_info "Create oemof objects";;
  create_oemof_objects;;
  logging_info "Optimise the energy system";;
  optimise_energysystem;;
  logging_info "Solve the optimization problem";;
  solve_energysystem;;
  logging_info "extract_results";;
  extract_results;;
  logging_info "Dump the energy system and the results.";;
  dump_results.

Definition main : M state unit :=
  assign (set_should_dump_results (Some true));;
  assign (set_solver (Some "cbc"));;
  assign (set_solver_verbose (Some false));;
  assign (set_debug (Some false));;
  assign (set_grid_supply (Some 30%Q));;
  assign (set_wallbox_power (Some 11%Q));;
  Model.

(** [EnergySystemModel(dump_filename)]: [__init__] on a new instance. *)
Definition init : M state unit :=
  logging_info "Initialize the energy system";;
  main.

Definition new_instance (dump_filename : string) : state :=
  MkState
    (Self dump_filename None None None None None None None None None None
       None None None None None None None None)
    [] [] [] [].

(** The whole run of the script for a given dump file name. *)
Definition run (dump_filename : string) : result unit * state :=
  init (new_instance dump_filename).

End Pipeline.

(** The columns [define_timeseries] reads, in the order it reads them. *)
Definition required_columns : list string :=
  ["BEV_at_home"; "PV_kW"; "Load_kW"; "consumption"; "charging_power_kW"].

(** All flows of a node, incoming then outgoing. *)
Definition node_flows (n : Node) : list Flow :=
  match n with
  | NBus _ => []
  | Source _ outputs => outputs.*2
  | Sink _ inputs => inputs.*2
  | GenericStorage _ inputs outputs _ _ _ _ _ => inputs.*2 ++ outputs.*2
  end.

Definition is_storage (n : Node) : bool :=
  match n with GenericStorage _ _ _ _ _ _ _ _ => true | _ => false end.

Definition node_label (n : Node) : string :=
  match n with
  | NBus b => bus_label b
  | Source l _ | Sink l _ | GenericStorage l _ _ _ _ _ _ _ => l
  end.

(** The nodes of the energy system a run ends with (none when there is no
    energy system). *)
Definition final_nodes (s : state) : list Node :=
  match es (self s) with Some e => nodes e | None => [] end.

End Case1.

(** ** Further exceptions *)

Module PyX.

(** The exceptions of [Py.exn] and those the remaining functions add. *)
Inductive exn : Type :=
| Base (e : Py.exn)
| ValueError (msg : string)
| UnboundLocalError (name : string).

Inductive outcome (A : Type) : Type :=
| Return (a : A)
| Raises (e : exn).
Arguments Return {A} a.
Arguments Raises {A} e.

Definition and_then {A B} (o : outcome A) (k : A → outcome B) : outcome B :=
  match o with
  | Return a => k a
  | Raises e => Raises e
  end.

(** [for x in l: acc = body x acc], stopping at the first exception. *)
Fixpoint for_each {A B} (body : A → B → outcome B) (l : list A) (acc : B)
  : outcome B :=
  match l with
  | [] => Return acc
  | x :: l' => and_then (body x acc) (for_each body l')
  end.

End PyX.

(** ** analyse_profiles.py *)

Module AnalyseProfiles.

(** What subscripting a database entry can give: one of its values, or a
    column when the entry is a data frame. *)
Inductive pyobj : Type :=
| Val (v : pyval)
| Column (s : Series).

(** [data[key]] *)
Definition subscript (data : pyval) (key : string) : PyX.outcome pyobj :=
  match data with
  | PyDict d =>
      match d !! key with
      | Some v => PyX.Return (Val v)
      | None => PyX.Raises (PyX.Base (KeyError key))
      end
  | PyFrame df =>
      match df !! key with
      | Some s => PyX.Return (Column s)
      | None => PyX.Raises (PyX.Base (KeyError key))
      end
  | PyNone | PyStr _ | PyInt _ =>
      PyX.Raises (PyX.Base (TypeError "object is not subscriptable"))
  end.

(** [list(db.db.keys())] *)
Definition list_profiles (db_db : gmap string pyval) : list string :=
  (map_to_list db_db).*1.

Definition not_found (profile_name : string) : string :=
  "Profil " +:+ profile_name +:+ " nicht in der Datenbank gefunden.".

Definition show_profile_info (db_db : gmap string pyval)
    (profile_name : string) : PyX.outcome (gmap string pyobj) :=
  if negb (contains profile_name db_db) then
    PyX.Raises (PyX.ValueError (not_found profile_name))
  else
    match db_db !! profile_name with
    | None => PyX.Raises (PyX.Base (KeyError profile_name))
    | Some data =>
        PyX.and_then (subscript data "kind") (λ kind,
        PyX.and_then (subscript data "user_rules") (λ rules,
        PyX.Return {[ "name" := Val (PyStr profile_name);
                      "kind" := kind;
                      "rules" := rules ]}))
    end.

End AnalyseProfiles.

(** ** save_profiles.py: the folder helper *)

Module SavePaths.

(** The paths that exist, and standard output. *)
Record fs_world : Type := FsWorld {
  existing : gset string;
  fs_printed : list string
}.

Section Paths.
(** [os.getcwd()], [os.path.abspath], [os.path.join]. *)
Variable os_getcwd : string.
Variable os_path_abspath : string → string.
Variable os_path_join : string → string → string.
(** The ancestors of a path, which [os.makedirs] creates along with it. *)
Variable ancestors : string → gset string.

(** [os.makedirs(p)] on a path that does not exist. *)
Definition makedirs (p : string) (w : fs_world) : fs_world :=
  FsWorld (existing w ∪ ancestors p ∪ {[ p ]}) (fs_printed w).

Definition fs_print (line : string) (w : fs_world) : fs_world :=
  FsWorld (existing w) (fs_printed w ++ [line]).

(** Truth value of the [subfolder] argument: [None] and the empty string
    are false. *)
Definition truthy (subfolder : option string) : bool :=
  match subfolder with
  | Some s => negb (String.eqb s "")
  | None => false
  end.

Definition results_path : string :=
  let file_path := os_getcwd in
  let base_path :=
    os_path_abspath (os_path_join (os_path_join file_path "..") "..") in
  os_path_join base_path "results".

(** [get_save_path(subfolder)]; the local [save_path] is only assigned in
    the first branch. *)
Definition get_save_path (subfolder : option string) (w : fs_world)
  : PyX.outcome string * fs_world :=
  match subfolder with
  | Some s =>
      if truthy subfolder then
        let save_path := os_path_join results_path s in
        let w := fs_print "<class 'str'>" w in
        let w :=
          if bool_decide (save_path ∈ existing w) then
            fs_print ("✅ Folder already exists: " +:+ save_path) w
          else
            fs_print ("📁 Folder created: " +:+ save_path)
              (makedirs save_path w) in
        (PyX.Return save_path, w)
      else (PyX.Raises (PyX.UnboundLocalError "save_path"), w)
  | None => (PyX.Raises (PyX.UnboundLocalError "save_path"), w)
  end.

End Paths.

End SavePaths.

(** ** create_rules.py: the rules file *)

Module CreateRulesFile.
Import CreateRules.

(** The calls that leave the interpreter: each of them can fail. *)
Inductive io_call : Type :=
| Makedirs (path : string)             (* [os.makedirs(path, exist_ok=True)] *)
| Open (filepath : string)             (* [open(filepath, "w")] *)
| FileWrite (filepath text : string)   (* [file.write(text)] *)
| JsonDump (filepath : string) (obj : value) (h : store).
                                     (* [json.dump(obj, file, indent=10)] *)

(** What happens to a file. *)
Inductive file_event : Type :=
| Opened (filepath : string)           (* created, or emptied *)
| Written (filepath text : string)
| Dumped (filepath : string) (obj : value)
                                     (* the whole JSON text of [obj] *)
| DumpedPartly (filepath : string) (obj : value).
                  (* [json.dump] raised: the text written so far remains *)

(** The store of objects, and what the function does outside of it. *)
Record rules_world : Type := RulesWorld {
  heap : store;
  folders_made : list string;          (* [os.makedirs] calls that returned *)
  file_events : list file_event;
  rw_printed : list string
}.

(** A computation on the store, run inside the larger state. *)
Definition on_heap {A} (m : M store A) : M rules_world A :=
  λ w, let '(r, h') := m (heap w) in
       (r, RulesWorld h' (folders_made w) (file_events w) (rw_printed w)).

(** [target[key] = v] *)
Definition dict_setitem (target : loc) (key : string) (v : value)
  : M store unit :=
  λ h, match h !! target with
       | Some (ODict d) => (Ok tt, <[target := ODict (<[key := v]> d)]> h)
       | _ => (Raise (TypeError "object does not support item assignment"), h)
       end.

Definition file_event_log (ev : file_event) : M rules_world unit :=
  modify (λ w, RulesWorld (heap w) (folders_made w) (file_events w ++ [ev])
                 (rw_printed w)).

Definition rw_print (line : string) : M rules_world unit :=
  modify (λ w, RulesWorld (heap w) (folders_made w) (file_events w)
                 (rw_printed w ++ [line])).

Definition yaml_header : string :=
  "# YAML-compatible file in JSON style" +:+ String "010"%char EmptyString.

Section File.
Variable os_path_join : string → string → string.
(** The exception a call outside the interpreter raises, if any: a folder
    that cannot be created, a file that cannot be opened or written, an
    object [json.dump] cannot serialise. *)
Variable io_raises : io_call → option exn.

Definition os_makedirs (p : string) : M rules_world unit :=
  match io_raises (Makedirs p) with
  | Some x => raise x
  | None =>
      modify (λ w, RulesWorld (heap w) (folders_made w ++ [p])
                     (file_events w) (rw_printed w))
  end.

Definition open_w (filepath : string) : M rules_world unit :=
  match io_raises (Open filepath) with
  | Some x => raise x
  | None => file_event_log (Opened filepath)
  end.

Definition file_write (filepath text : string) : M rules_world unit :=
  match io_raises (FileWrite filepath text) with
  | Some x => raise x
  | None => file_event_log (Written filepath text)
  end.

Definition json_dump (obj : value) (filepath : string) : M rules_world unit :=
  w ← get;
  match io_raises (JsonDump filepath obj (heap w)) with
  | Some x => file_event_log (DumpedPartly filepath obj);; raise x
  | None => file_event_log (Dumped filepath obj)
  end.

(** One round of the loop over [groups]. *)
Definition rules_step (rules : loc) (specifics_rules base_day_rules : value)
    (group : string) (_ : unit) : M store unit :=
  r ← get_rules_for_group group specifics_rules base_day_rules;
  dict_setitem rules group r.

(** The [with] block closes the file and lets an exception of its body
    through. *)
Definition create_emobpy_rules_yaml (path : string) (groups : list string)
    (specifics_rules base_day_rules : value) : M rules_world unit :=
  rules ← on_heap (new_dict ∅);
  on_heap (for_each (rules_step rules specifics_rules base_day_rules)
             groups tt);;
  os_makedirs path;;
  let filepath := os_path_join path "rules.yml" in
  open_w filepath;;
  file_write filepath yaml_header;;
  json_dump (Ref rules) filepath;;
  rw_print ("Rules file saved at: " +:+ filepath +:+ " âœ…").

End File.

End CreateRulesFile.

(** ** calculate_consumption.py: the vehicle table *)

Module BevDatabase.

(** A row of the table: manufacturer, model, year. *)
Abbreviation row := (string * string * Z)%type.

Section Load.
(** [int(year)] on a year key; [None] when the key is not a number. *)
Variable int_of : string → option Z.

Definition invalid_literal (year : string) : string :=
  "invalid literal for int() with base 10: '" +:+ year +:+ "'".

(** [for year in years: rows.append((manufacturer, model_name, int(year)))] *)
Definition year_step (manufacturer model_name : string) (year : string)
    (rows : list row) : PyX.outcome (list row) :=
  match int_of year with
  | Some y => PyX.Return (rows ++ [(manufacturer, model_name, y)])
  | None => PyX.Raises (PyX.ValueError (invalid_literal year))
  end.

Definition model_step (manufacturer : string)
    (item : string * list string) (rows : list row)
  : PyX.outcome (list row) :=
  let '(model_name, years) := item in
  PyX.for_each (year_step manufacturer model_name) years rows.

Definition manufacturer_step (item : string * gmap string (list string))
    (rows : list row) : PyX.outcome (list row) :=
  let '(manufacturer, model_dict) := item in
  if String.eqb manufacturer "fallback_parameters" then PyX.Return rows
  else PyX.for_each (model_step manufacturer) (map_to_list model_dict) rows.

(** [load_bev_database]; [data] is [BEVspecs().data], and the result is the
    list of rows the data frame is built from. *)
Definition load_bev_database (data : gmap string (gmap string (list string)))
  : PyX.outcome (list row) :=
  PyX.for_each manufacturer_step (map_to_list data) [].

End Load.

End BevDatabase.

(** ** Vocabulary of the statements *)

(** [v] is a record (a dictionary) whose [kind] tag is the string [kind]. *)
Definition record_of_kind (kind : string) (v : pyval) : Prop :=
  ∃ d, v = PyDict d ∧ d !! "kind" = Some (PyStr kind).

(** The profiles without a ['timeseries'] entry, in iteration order. *)
Definition lacking (l : list (string * gmap string pyval)) : list string :=
  (filter (λ item, item.2 !! "timeseries" = None) l).*1.

(** The files [save_timeseries_to_csv] is meant to leave behind, in
    iteration order. *)
Definition expected_files (os_path_join : string → string → string)
    (timeseries_data : gmap string DataFrame) (path : string)
  : list (string * DataFrame) :=
  (λ item, (os_path_join path (item.1 +:+ ".csv"), item.2))
    <$> map_to_list timeseries_data.

(** The lines [save_timeseries_to_csv] prints for the items [l]. *)
Definition saved_lines (os_path_join : string → string → string)
    (path : string) (l : list (string * DataFrame))
  : list string :=
  (λ item, "✅ Saved: " +:+ os_path_join path (item.1 +:+ ".csv")) <$> l.

(** [posixpath.join] for two components, the [os.path.join] of a POSIX
    system; used to run the examples. *)
Definition posixpath_join (a b : string) : string :=
  if String.prefix "/" b then b
  else if (String.eqb a ""
           || String.eqb (String.substring (String.length a - 1) 1 a) "/")%bool
       then a +:+ b
       else a +:+ "/" +:+ b.

(** The overlay a day ends up with, read off the group's dictionary. *)
Definition day_overlay (h : CreateRules.store) (gd : CreateRules.dict)
    (day : string) : CreateRules.dict :=
  match gd !! day with
  | Some v => default ∅ (CreateRules.deref_dict h v)
  | None => ∅
  end.

(** The network the script is expected to build from the four series it
    uses. *)
Definition b_el : Case1.Bus := Case1.MkBus "electricity" None.
Definition b_bev : Case1.Bus := Case1.MkBus "mobility" (Some true).

Definition case1_index : Case1.DatetimeIndex :=
  Case1.date_range "2022-01-01" 672 "15min".

Definition case1_storage (consumption : Series) : Case1.Node :=
  Case1.GenericStorage "BEV_Storage"
    [(b_bev, Case1.MkFlow None None None None)]
    [(b_bev, Case1.MkFlow None None None None)]
    45%Q 0.4%Q 0.95%Q 0.95%Q (Case1.times4 consumption).

Definition case1_wallbox (at_home : Series) : Case1.Node :=
  Case1.Source "wallbox"
    [(b_bev, Case1.MkFlow None (Some at_home) (Some 11%Q) (Some 30%Q))].

Definition case1_network (at_home pv load consumption : Series)
  : list Case1.Node :=
  [ Case1.NBus b_el; Case1.NBus b_bev;
    Case1.Source "pv"
      [(b_el, Case1.MkFlow (Some pv) None (Some 1%Q) (Some 0%Q))];
    case1_wallbox at_home;
    Case1.Source "grid-supply"
      [(b_el, Case1.MkFlow None None (Some 30%Q) (Some 30%Q))];
    Case1.Sink "excess_bel"
      [(b_el, Case1.MkFlow None None None (Some (-7.9)%Q))];
    Case1.Sink "demand"
      [(b_el, Case1.MkFlow (Some load) None (Some 1%Q) None)];
    case1_storage consumption ].

Definition log_until_compile : list string :=
  [ "Initialize the energy system"; "define_time_index"; "define_timeseries";
    "Import general timeseries"; "Import BEV-timeseries";
    "Create oemof objects"; "Optimise the energy system" ].

Definition log_until_solve : list string :=
  [ "Initialize the energy system"; "define_time_index"; "define_timeseries";
    "Import general timeseries"; "Import BEV-timeseries";
    "Create oemof objects"; "Optimise the energy system";
    "Solve the optimization problem" ].

(** The solver's answer counts as a success. *)
Definition solved (r : Case1.SolverResults) : Prop :=
  Case1.status r = SolverStatus.ok
  ∧ Case1.termination_condition r = TerminationCondition.optimal.

(** The model handed to the solver. *)
Definition case1_model (at_home pv load consumption : Series)
  : Case1.OpModel :=
  Case1.Model_of case1_index (case1_network at_home pv load consumption).

(** The instance at the end of a run that got to the compile stage, with
    [m] as its model attribute and [e] as its energy system. *)
Definition case1_self (dump_filename : string) (input_table : DataFrame)
    (at_home pv load consumption charging : Series)
    (m : option Case1.OpModel) (e : Case1.EnergySystem)
  : Case1.EnergySystemModel :=
  Case1.Self dump_filename (Some "2022-01-01") (Some 672%nat) (Some "15min")
    (Some case1_index) (Some e) m (Some input_table)
    (Some at_home) (Some pv) (Some load) (Some consumption) (Some charging)
    (Some true) (Some "cbc") (Some false) (Some false)
    (Some 30%Q) (Some 11%Q).

(** The energy system when the network is built: no results yet. *)
Definition es_built (at_home pv load consumption : Series)
  : Case1.EnergySystem :=
  Case1.MkEnergySystem case1_index true
    (case1_network at_home pv load consumption) None.

(** The energy system when the solver has answered [r]. *)
Definition es_answered (at_home pv load consumption : Series)
    (r : Case1.SolverResults) : Case1.EnergySystem :=
  Case1.MkEnergySystem case1_index true
    (case1_network at_home pv load consumption) (Some (r, ∅)).

(** The energy system when the results are extracted. *)
Definition es_solved (at_home pv load consumption : Series)
    (r : Case1.SolverResults) : Case1.EnergySystem :=
  Case1.MkEnergySystem case1_index true
    (case1_network at_home pv load consumption)
    (Some (r,
           <["meta" := Case1.processing_meta_results
                         (case1_model at_home pv load consumption)]>
             (<["main" := Case1.processing_results
                            (case1_model at_home pv load consumption)]> ∅))).

(** Some required series is missing from the table, or shorter than [T]. *)
Definition missing_or_short (T : nat) (table : DataFrame) : Prop :=
  ∃ c, c ∈ Case1.required_columns
       ∧ (table !! c = None
          ∨ ∃ series, table !! c = Some series ∧ (length series < T)%nat).

(** The run stops with an exception before the compile stage is entered. *)
Definition rejected_before_compilation (table : DataFrame) : Prop :=
  ∀ Model_raises model_solve dump_raises dump_path lp_file_path
    dump_filename,
    let out := Case1.run table Model_raises model_solve dump_raises
                 dump_path lp_file_path dump_filename in
    (∃ e, out.1 = Raise e)
    ∧ ("Optimise the energy system" ∉ Case1.logged out.2)
    ∧ Case1.model (Case1.self out.2) = None.

(** A table with all five series, two rows each. *)
Definition short_table : DataFrame :=
  {[ "BEV_at_home" := [0; 1]%Q; "PV_kW" := [0; 10]%Q; "Load_kW" := [5; 5]%Q;
     "consumption" := [0.5; 0]%Q; "charging_power_kW" := [0; 11]%Q ]}.

(** The same table without its [consumption] column. *)
Definition table_without_consumption : DataFrame :=
  delete "consumption" short_table.

(** A table with all five series, 672 rows each: a car that is always at
    home and is not driven. *)
Definition full_table : DataFrame :=
  {[ "BEV_at_home" := replicate 672 1%Q; "PV_kW" := replicate 672 10%Q;
     "Load_kW" := replicate 672 5%Q; "consumption" := replicate 672 0%Q;
     "charging_power_kW" := replicate 672 11%Q ]}.

(** The series a node carries: the profiles of its flows, and the losses of
    a storage. *)
Definition node_series (n : Case1.Node) : list Series :=
  (Case1.node_flows n
     ≫= λ f, option_list (Case1.fix_ f) ++ option_list (Case1.max_ f))
  ++ match n with
     | Case1.GenericStorage _ _ _ _ _ _ _ losses => [losses]
     | _ => []
     end.

(** A compile step that fails exactly on energy systems with a series that
    has fewer entries than the time index has periods. *)
Definition short_series_error (e : Case1.EnergySystem) : option exn :=
  if forallb (λ s, Case1.index_periods (Case1.timeindex e) <=? length s)%nat
       (Case1.nodes e ≫= node_series)
  then None else Some (External "IndexError").

(** A dump that goes through wherever it is put. *)
Definition dump_succeeds
  : string → string → Case1.EnergySystem → option exn :=
  λ _ _ _, None.

(** A solver that always gives the same answer. *)
Definition always (r : Case1.SolverResults)
  : Case1.OpModel → string → bool → result Case1.SolverResults :=
  λ _ _ _, Ok r.

Definition optimal_answer : Case1.SolverResults :=
  Case1.MkSolverResults SolverStatus.ok TerminationCondition.optimal None.

Definition infeasible_answer : Case1.SolverResults :=
  Case1.MkSolverResults SolverStatus.warning TerminationCondition.infeasible
    (Some "infeasible").

(** A small store for the examples: the base day rules, the weekday rules
    of the commuters, the commuters' entry, and the group-specific rules. *)
Definition demo_base : CreateRules.dict :=
  {[ "home" := CreateRules.VNum 1; "n_trip_out" := CreateRules.VNum 2 ]}.

Definition demo_commuter_weekday : CreateRules.dict :=
  {[ "n_trip_out" := CreateRules.VNum 5 ]}.

Definition demo_store : CreateRules.store :=
  [ CreateRules.ODict demo_base;
    CreateRules.ODict demo_commuter_weekday;
    CreateRules.ODict {[ "weekday" := CreateRules.Ref 1 ]};
    CreateRules.ODict {[ "commuter" := CreateRules.Ref 2 ]} ].

(** A small profile database for the examples. *)
Definition demo_db : gmap string pyval :=
  {[ "BEV1" := PyDict {[ "kind" := PyStr "consumption";
                         "timeseries" := PyFrame short_table ]};
     "BEV1_W" := PyDict {[ "kind" := PyStr "driving" ]};
     "note" := PyStr "consumption" ]}.


(** ** Vocabulary of the further statements *)

(** The entries of a dictionary that are records, as records. *)
Definition records_of (m : gmap string pyval)
  : gmap string (gmap string pyval) :=
  omap (λ v, match v with PyDict d => Some d | _ => None end) m.

(** The profiles that do have a ['timeseries'] entry. *)
Definition carrying (l : list (string * gmap string pyval))
  : list (string * gmap string pyval) :=
  filter (λ item, is_Some (item.2 !! "timeseries")) l.

(** A database with one complete driving profile and one consumption
    profile without rules. *)
Definition viewer_db : gmap string pyval :=
  {[ "BEV_commuter" := PyDict {[ "kind" := PyStr "driving";
                                 "user_rules" := PyDict ∅ ]};
     "BEV_commuter_ID3" := PyDict {[ "kind" := PyStr "consumption" ]} ]}.

(** A loop body that extends the rows by [g x], or raises a [ValueError]
    where [g x] is undefined. *)
Definition appends {A R : Type}
    (body : A → list R → PyX.outcome (list R)) (g : A → option (list R))
  : Prop :=
  ∀ x rows,
    match g x with
    | Some r => body x rows = PyX.Return (rows ++ r)
    | None => ∃ msg, body x rows = PyX.Raises (PyX.ValueError msg)
    end.

(** The rows one year key, one model and one manufacturer contribute. *)
Definition year_rows (int_of : string → option Z)
    (manufacturer model_name : string) (year : string)
  : option (list BevDatabase.row) :=
  (λ y, [(manufacturer, model_name, y)]) <$> int_of year.

Definition model_rows (int_of : string → option Z) (manufacturer : string)
    (item : string * list string) : option (list BevDatabase.row) :=
  (λ rs, concat rs) <$> mapM (year_rows int_of manufacturer item.1) item.2.

Definition manufacturer_rows (int_of : string → option Z)
    (item : string * gmap string (list string))
  : option (list BevDatabase.row) :=
  if String.eqb item.1 "fallback_parameters" then Some []
  else (λ rs, concat rs) <$> mapM (model_rows int_of item.1) (map_to_list item.2).

(** A reader of four-digit years, for the examples. *)
Definition demo_int_of (s : string) : option Z :=
  if String.eqb s "2019" then Some 2019%Z
  else if String.eqb s "2020" then Some 2020%Z
  else if String.eqb s "2021" then Some 2021%Z
  else None.

(** Vehicle data with two models and the fallback entry. *)
Definition demo_bev_data : gmap string (gmap string (list string)) :=
  {[ "Volkswagen" := {[ "ID.3" := ["2020"; "2021"] ]};
     "Tesla" := {[ "Model 3" := ["2019"] ]};
     "fallback_parameters" := {[ "cabin" := ["volume"] ]} ]}.

(** A computation on the store that leaves its first [n] objects as they
    are, whatever its outcome; [post] holds of the value it returns. *)
Definition keeps {A : Type} (n : nat) (m : M CreateRules.store A)
    (post : A → Prop) : Prop :=
  ∀ h, (n ≤ length h)%nat →
    take n (m h).2 = take n h
    ∧ (n ≤ length (m h).2)%nat
    ∧ ∀ a, (m h).1 = Ok a → post a.

(** In the store [h], [v] refers to the merged rules of [group]: a new
    dictionary, above the [n] first objects, whose two entries refer to the
    base rules [B] overlaid with the group's rules as found in [h0]. *)
Definition merged_rules_of (h0 : CreateRules.store) (S B : CreateRules.dict)
    (n : nat) (h : CreateRules.store) (group : string)
    (v : CreateRules.value) : Prop :=
  ∃ r weekday weekend,
    v = CreateRules.Ref r
    ∧ (n < r ∧ n < weekday ∧ n < weekend)%nat
    ∧ CreateRules.deref_dict h (CreateRules.Ref r)
      = Some {[ "weekday" := CreateRules.Ref weekday;
                "weekend" := CreateRules.Ref weekend ]}
    ∧ CreateRules.deref_dict h (CreateRules.Ref weekday)
      = Some (CreateRules.group_day_rules h0 S group "weekday" ∪ B)
    ∧ CreateRules.deref_dict h (CreateRules.Ref weekend)
      = Some (CreateRules.group_day_rules h0 S group "weekend" ∪ B).

(** The two-row table with another [charging_power_kW] series. *)
Definition short_table_charging3 : DataFrame :=
  {[ "BEV_at_home" := [0; 1]%Q; "PV_kW" := [0; 10]%Q; "Load_kW" := [5; 5]%Q;
     "consumption" := [0.5; 0]%Q; "charging_power_kW" := [3; 3]%Q ]}.


(** No call outside the interpreter fails. *)
Definition io_succeeds : CreateRulesFile.io_call → option exn := λ _, None.

(** * Properties *)

(** ** Running monadic code *)

Lemma run_bind {S A B} (m : M S A) (k : A → M S B) (s : S) :
  (m ≫= k) s = match m s with
               | (Ok a, s') => k a s'
               | (Raise e, s') => (Raise e, s')
               end.
Proof. reflexivity. Qed.

Lemma run_bind_ok {S A B} (m : M S A) (k : A → M S B) (s s' : S) (a : A) :
  m s = (Ok a, s') → (m ≫= k) s = k a s'.
Proof. intros Hm. rewrite run_bind, Hm. reflexivity. Qed.

Lemma bind_ok {S A B} (m : M S A) (k : A → M S B) (s s' : S) (a : A) :
  m s = (Ok a, s') → Py.bind m k s = k a s'.
Proof. exact (run_bind_ok m k s s' a). Qed.

Lemma run_bind_raise {S A B} (m : M S A) (k : A → M S B) (s s' : S) e :
  m s = (Raise e, s') → (m ≫= k) s = (Raise e, s').
Proof. intros Hm. rewrite run_bind, Hm. reflexivity. Qed.


(** ** Proof automation *)

(** Unfolds the monad's plumbing in the goal. *)
Ltac run_monad :=
  cbv beta iota delta
    [mbind mret M_bind M_ret Py.bind Py.ret Py.modify Py.raise Py.get].

(** Evaluates one stage applied to a state: unfolds the stages and the
    monad, and leaves dictionary lookups and the decisions on the solver's
    answer in place. *)
Ltac eval_stage t :=
  eval cbv beta iota zeta delta
    [Case1.init Case1.main Case1.Model Case1.new_instance
     Case1.define_time_index Case1.define_timeseries Case1.get_timeseries
     Case1.create_oemof_objects Case1.self_es_add Case1.es_add
     Case1.optimise_energysystem Case1.solve_energysystem
     Case1.oemof_Model Case1.self_model_solve Case1.set_result_item
     Case1.extract_results Case1.dump_results Case1.es_set_result
     Case1.es_with_results Case1.es_dumped
     Case1.logging_info Case1.print Case1.model_write Case1.es_dump
     Case1.assign Case1.attr Case1.exit
     Case1.set_start_date Case1.set_periods Case1.set_freq
     Case1.set_time_index Case1.set_es Case1.set_model
     Case1.set_df_timeseries Case1.set_BEV_state Case1.set_PV_load
     Case1.set_demand Case1.set_BEV_consumption Case1.set_BEV_charging
     Case1.set_should_dump_results Case1.set_solver Case1.set_solver_verbose
     Case1.set_debug Case1.set_grid_supply Case1.set_wallbox_power
     Case1.self Case1.logged Case1.printed Case1.lp_files Case1.dumped
     Case1.dump_filename Case1.start_date Case1.periods Case1.freq
     Case1.time_index Case1.es Case1.model Case1.df_timeseries
     Case1.BEV_state Case1.PV_load Case1.demand Case1.BEV_consumption
     Case1.BEV_charging Case1.should_dump_results Case1.solver
     Case1.solver_verbose Case1.debug Case1.grid_supply Case1.wallbox_power
     Case1.timeindex Case1.infer_last_interval Case1.nodes Case1.results
     Py.getitem Py.try_except
     mbind mret M_bind M_ret Py.bind Py.ret Py.modify Py.raise Py.get
     app]
  in t.

(** One step of [m ;; rest] on a state: evaluate [m], continue with
    [rest]. *)
Ltac stage :=
  lazymatch goal with
  | |- context [(?m ≫= ?k) ?s] =>
      rewrite (run_bind m k s);
      let v := eval_stage (m s) in
      change (m s) with v; cbv beta iota
  end.

(** Closes the case where [c], at position [i], is the first missing
    column: the lookups of the columns before it are in the context. *)
Ltac missing_at i c :=
  exists i, c;
  split; [reflexivity|];
  split; [assumption|];
  split;
    [intros j c' Hj Hc';
     do 5 (destruct j as [|j];
           [first [lia | injection Hc' as <-; eexists; eassumption]|]);
     lia
    |];
  repeat split.

(** ** Profile database filters *)


Lemma has_kind_true kind v :
  SaveProfiles.has_kind kind v = true ↔ record_of_kind kind v.
Proof.
  unfold record_of_kind. split.
  - destruct v as [| | | |d]; simpl; try discriminate.
    destruct (d !! "kind") as [[| s | | |]|] eqn:Hk; try discriminate.
    intros Heq. apply String.eqb_eq in Heq. subst s. eauto.
  - intros (d & -> & Hk). simpl. rewrite Hk. apply String.eqb_refl.
Qed.

Lemma calculate_consumption_same_filter db_db :
  CalculateConsumption.get_consumption_profiles db_db
  = SaveProfiles.get_consumption_profiles db_db.
Proof. reflexivity. Qed.

(** C7: [get_consumption_profiles] (both copies, in save_profiles.py and in
    calculate_consumption.py) returns exactly the database entries that are
    records tagged [kind == "consumption"]: a name is bound to [v] in the
    result if and only if it is bound to [v] in the database and [v] is such
    a record. *)
Theorem get_consumption_profiles_exact (db_db : gmap string pyval)
    (name : string) (v : pyval) :
  (SaveProfiles.get_consumption_profiles db_db !! name = Some v
   ↔ db_db !! name = Some v ∧ record_of_kind "consumption" v)
  ∧ (CalculateConsumption.get_consumption_profiles db_db !! name = Some v
     ↔ db_db !! name = Some v ∧ record_of_kind "consumption" v).
Proof.
  assert (SaveProfiles.get_consumption_profiles db_db !! name = Some v
          ↔ db_db !! name = Some v ∧ record_of_kind "consumption" v) as H.
  { unfold SaveProfiles.get_consumption_profiles.
    rewrite map_lookup_filter_Some. simpl. by rewrite has_kind_true. }
  split; exact H.
Qed.

Example get_consumption_profiles_demo :
  SaveProfiles.get_consumption_profiles demo_db
  = {[ "BEV1" := PyDict {[ "kind" := PyStr "consumption";
                           "timeseries" := PyFrame short_table ]} ]}.
Proof. vm_compute. reflexivity. Qed.

(** ** Extraction of the timeseries payloads *)

Section Timeserie.
Import SaveProfiles.


Lemma timeserie_step_some key profile ts acc out :
  profile !! "timeseries" = Some ts →
  timeserie_step (key, profile) acc out = (Ok (<[key := ts]> acc), out).
Proof.
  intros Hts. unfold timeserie_step, contains, getitem. rewrite Hts.
  reflexivity.
Qed.

Lemma timeserie_step_none key profile acc out :
  profile !! "timeseries" = None →
  timeserie_step (key, profile) acc out
  = (Ok acc, out ++ [warn_no_timeseries key]).
Proof.
  intros Hts. unfold timeserie_step, contains. rewrite Hts. reflexivity.
Qed.

Lemma timeserie_loop l : ∀ acc out,
  NoDup l.*1 →
  ∃ td, for_each timeserie_step l acc out
        = (Ok td, out ++ (warn_no_timeseries <$> lacking l))
      ∧ ∀ k ts, td !! k = Some ts ↔
          (∃ p, (k, p) ∈ l ∧ p !! "timeseries" = Some ts)
          ∨ ((∀ p, (k, p) ∈ l → p !! "timeseries" = None)
             ∧ acc !! k = Some ts).
Proof.
  induction l as [|[k0 p0] l IH]; intros acc out Hnd.
  - exists acc. split.
    + simpl. unfold ret. by rewrite app_nil_r.
    + intros k ts. split; [intros H; right; split; [|done] | ].
      * intros p Hp. by apply elem_of_nil in Hp.
      * intros [(p & Hp & _) | [_ H]]; [by apply elem_of_nil in Hp | done].
  - apply NoDup_cons in Hnd as [Hk0 Hnd]. simpl in Hk0.
    assert (∀ p, (k0, p) ∉ l) as Hfresh.
    { intros p Hp. apply Hk0. apply list_elem_of_fmap. by exists (k0, p). }
    cbn [for_each]. unfold bind.
    destruct (p0 !! "timeseries") as [ts0|] eqn:Hts0.
    + rewrite (timeserie_step_some _ _ ts0) by done.
      destruct (IH (<[k0 := ts0]> acc) out Hnd) as (td & Hrun & Htd).
      exists td. split.
      * rewrite Hrun. unfold lacking. rewrite filter_cons_False; [done|].
        simpl. by rewrite Hts0.
      * intros k ts. rewrite Htd. clear Htd Hrun IH.
        destruct (decide (k = k0)) as [->|Hne].
        -- rewrite lookup_insert_eq. split.
           ++ intros [(p & Hp & _) | [_ [= ->]]]; [by apply Hfresh in Hp|].
              left. exists p0. split; [left | done].
           ++ intros [(p & Hp & Hts) | [Hall _]].
              ** apply elem_of_cons in Hp as [[= ->] | Hp];
                   [|by apply Hfresh in Hp].
                 right. split; [|congruence].
                 intros p' Hp'. by apply Hfresh in Hp'.
              ** specialize (Hall p0 ltac:(left)). congruence.
        -- rewrite lookup_insert_ne by done. split.
           ++ intros [(p & Hp & Hts) | [Hall Hacc]].
              ** left. exists p. split; [by right | done].
              ** right. split; [|done]. intros p Hp.
                 apply elem_of_cons in Hp as [[= -> ->] | Hp]; [done|].
                 by apply Hall.
           ++ intros [(p & Hp & Hts) | [Hall Hacc]].
              ** apply elem_of_cons in Hp as [[= -> ->] | Hp]; [done|].
                 left. by exists p.
              ** right. split; [|done]. intros p Hp. apply Hall. by right.
    + rewrite timeserie_step_none by done.
      destruct (IH acc (out ++ [warn_no_timeseries k0]) Hnd)
        as (td & Hrun & Htd).
      exists td. split.
      * rewrite Hrun. unfold lacking. rewrite filter_cons_True by done.
        simpl. by rewrite <- app_assoc.
      * intros k ts. rewrite Htd. clear Htd Hrun IH. split.
        -- intros [(p & Hp & Hts) | [Hall Hacc]].
           ++ left. exists p. split; [by right | done].
           ++ right. split; [|done]. intros p Hp.
              apply elem_of_cons in Hp as [[= -> ->] | Hp]; [done|].
              by apply Hall.
        -- intros [(p & Hp & Hts) | [Hall Hacc]].
           ++ apply elem_of_cons in Hp as [[= -> ->] | Hp]; [congruence|].
              left. by exists p.
           ++ right. split; [|done]. intros p Hp. apply Hall. by right.
Qed.

(** C8: on every dictionary of consumption profiles the extraction returns
    normally (no exception), the result binds a name to [ts] exactly when
    the profile of that name has [ts] as its ['timeseries'] entry, and one
    warning line is printed for each profile without such an entry (followed
    by the final notice when nothing at all was extracted). *)
Theorem get_timeserie_skips_and_reports
    (consumption_profiles : gmap string (gmap string pyval))
    (out : list string) :
  ∃ timeseries_data,
    get_timeserie_from_consumption_profiles consumption_profiles out
    = (Ok timeseries_data,
       out
       ++ (warn_no_timeseries <$> lacking (map_to_list consumption_profiles))
       ++ (if bool_decide (size timeseries_data = 0)
           then [no_timeseries_at_all] else []))
    ∧ (∀ name ts,
         timeseries_data !! name = Some ts
         ↔ ∃ profile, consumption_profiles !! name = Some profile
                      ∧ profile !! "timeseries" = Some ts)
    ∧ (∀ name profile,
         consumption_profiles !! name = Some profile →
         profile !! "timeseries" = None →
         timeseries_data !! name = None
         ∧ warn_no_timeseries name
           ∈ warn_no_timeseries
             <$> lacking (map_to_list consumption_profiles)).
Proof.
  destruct (timeserie_loop (map_to_list consumption_profiles) ∅ out
              (NoDup_fst_map_to_list _)) as (td & Hrun & Htd).
  assert (∀ name ts,
            td !! name = Some ts
            ↔ ∃ profile, consumption_profiles !! name = Some profile
                         ∧ profile !! "timeseries" = Some ts) as Hspec.
  { intros name ts. rewrite Htd. split.
    - intros [(p & Hp & Hts) | [_ Hacc]]; [|by rewrite lookup_empty in Hacc].
      exists p. by rewrite <- elem_of_map_to_list.
    - intros (p & Hp & Hts). left. exists p.
      by rewrite elem_of_map_to_list. }
  exists td. split; [|split; [exact Hspec|]].
  - unfold get_timeserie_from_consumption_profiles.
    rewrite (run_bind_ok _ _ _ _ _ Hrun).
    destruct (bool_decide (size td = 0)); cbn.
    + unfold print. run_monad. by rewrite <- app_assoc.
    + run_monad. by rewrite !app_nil_r.
  - intros name profile Hp Hts. split.
    + destruct (td !! name) as [ts|] eqn:Hl; [|done].
      apply Hspec in Hl as (p & Hp' & Hts'). congruence.
    + apply list_elem_of_fmap. exists name. split; [done|].
      unfold lacking. apply list_elem_of_fmap. exists (name, profile).
      split; [done|]. apply list_elem_of_filter. split; [done|].
      by apply elem_of_map_to_list.
Qed.
Example get_timeserie_demo :
  get_timeserie_from_consumption_profiles
    {[ "BEV1" := {[ "kind" := PyStr "consumption";
                    "timeseries" := PyFrame short_table ]};
       "BEV2" := {[ "kind" := PyStr "consumption" ]} ]} []
  = (Ok {[ "BEV1" := PyFrame short_table ]}, [warn_no_timeseries "BEV2"]).
Proof. vm_compute. reflexivity. Qed.

End Timeserie.

(** ** Saving the timeseries *)

Section SaveCsv.
Import SaveProfiles.
Variable os_path_join : string → string → string.


Lemma save_step_run path profile df filename w :
  save_step os_path_join path (profile, df) filename w
  = (Ok (os_path_join path (profile +:+ ".csv")),
     World (csv_written w ++ [(os_path_join path (profile +:+ ".csv"), df)])
           (printed w
            ++ ["✅ Saved: " +:+ os_path_join path (profile +:+ ".csv")])).
Proof. reflexivity. Qed.

Lemma save_loop path l : ∀ filename w,
  ∃ last,
    for_each (save_step os_path_join path) l filename w
    = (Ok last,
       World (csv_written w
              ++ ((λ item, (os_path_join path (item.1 +:+ ".csv"), item.2))
                    <$> l))
             (printed w ++ saved_lines os_path_join path l)).
Proof.
  induction l as [|[profile df] l IH]; intros filename w.
  - exists filename. simpl. unfold ret. rewrite !app_nil_r. by destruct w.
  - cbn [for_each]. rewrite (bind_ok _ _ _ _ _ (save_step_run _ _ _ _ _)).
    destruct (IH (os_path_join path (profile +:+ ".csv"))
                (World (csv_written w
                        ++ [(os_path_join path (profile +:+ ".csv"), df)])
                       (printed w
                        ++ ["✅ Saved: "
                            +:+ os_path_join path (profile +:+ ".csv")])))
      as (last & ->).
    exists last. cbn. by rewrite <- !app_assoc.
Qed.

Lemma save_timeseries_to_csv_run timeseries_data path filename w :
  save_timeseries_to_csv os_path_join timeseries_data path filename w
  = (Ok tt,
     World (csv_written w ++ expected_files os_path_join timeseries_data path)
           (printed w ++ saved_lines os_path_join path (map_to_list timeseries_data))).
Proof.
  unfold save_timeseries_to_csv.
  destruct (save_loop path (map_to_list timeseries_data) filename w)
    as (last & Hrun).
  by rewrite (run_bind_ok _ _ _ _ _ Hrun).
Qed.

End SaveCsv.


(** ** Rules for a group *)

Section Rules.
Import CreateRules.

Lemma deref_dict_app h h' v d :
  deref_dict h v = Some d → deref_dict (h ++ h') v = Some d.
Proof.
  destruct v as [| | | |l]; simpl; try discriminate.
  destruct (h !! l) as [o|] eqn:Hl; [|discriminate].
  by rewrite (lookup_app_l_Some _ _ _ _ Hl).
Qed.

Lemma deref_dict_fresh h d h' :
  deref_dict (h ++ ODict d :: h') (Ref (length h)) = Some d.
Proof. simpl. by rewrite list_lookup_middle. Qed.

Lemma get_or_empty_run h v key d :
  deref_dict h v = Some d →
  get_or_empty v key h
  = (Ok (default (Ref (length h)) (d !! key)), h ++ [ODict ∅]).
Proof.
  intros Hd. unfold get_or_empty, get_method, new_dict. run_monad.
  by rewrite Hd.
Qed.

Lemma dict_update_run h target src d t :
  deref_dict h src = Some d → h !! target = Some (ODict t) →
  dict_update target src h = (Ok tt, <[target := ODict (d ∪ t)]> h).
Proof. intros Hd Ht. unfold dict_update. by rewrite Hd, Ht. Qed.

Lemma insert_fresh (h : store) o o' h' :
  <[length h := o']> (h ++ o :: h') = h ++ o' :: h'.
Proof.
  rewrite insert_app_r_alt by lia. by rewrite Nat.sub_diag.
Qed.


Lemma merged_day_run h base gs day B G :
  deref_dict h base = Some B →
  deref_dict h gs = Some G →
  (∀ v, G !! day = Some v → is_Some (deref_dict h v)) →
  merged_day base gs day h
  = (Ok (Ref (length h)), h ++ [ODict (day_overlay h G day ∪ B); ODict ∅]).
Proof.
  intros HB HG Hday. unfold merged_day.
  rewrite (run_bind_ok _ _ _ _ _ (eq_refl : new_dict ∅ h = _)).
  erewrite run_bind_ok; cycle 1.
  { eapply dict_update_run; [by apply deref_dict_app|].
    by apply list_lookup_middle. }
  rewrite insert_fresh, (right_id_L ∅ (∪)).
  erewrite run_bind_ok; cycle 1.
  { eapply get_or_empty_run. by apply deref_dict_app. }
  rewrite <- app_assoc. cbn [app]. rewrite length_app. cbn [length].
  erewrite run_bind_ok; cycle 1.
  { eapply (dict_update_run _ _ _ (day_overlay h G day));
      [|by apply list_lookup_middle].
    unfold day_overlay. destruct (G !! day) as [v|] eqn:Hv; cbn [default].
    - destruct (Hday v eq_refl) as [D HD]. rewrite HD. cbn [default].
      by apply deref_dict_app.
    - replace (h ++ [ODict B; ODict ∅]) with ((h ++ [ODict B]) ++ [ODict ∅])
        by (by rewrite <- app_assoc).
      replace (length h + 1) with (length (h ++ [ODict B]))
        by (rewrite length_app; reflexivity).
      apply deref_dict_fresh. }
  by rewrite insert_fresh.
Qed.

Lemma day_overlay_app h h' gd day :
  (∀ v, gd !! day = Some v → is_Some (deref_dict h v)) →
  day_overlay (h ++ h') gd day = day_overlay h gd day.
Proof.
  intros Hwf. unfold day_overlay. destruct (gd !! day) as [v|]; [|done].
  destruct (Hwf v eq_refl) as [D HD].
  by rewrite HD, (deref_dict_app _ h' _ _ HD).
Qed.

Lemma lookup_overlay (W B : dict) k :
  (W ∪ B) !! k = match W !! k with Some v => Some v | None => B !! k end.
Proof.
  destruct (W !! k) as [v|] eqn:HW.
  - by apply lookup_union_Some_l.
  - by apply lookup_union_r.
Qed.

(** What [get_rules_for_group] leaves in the store: six new objects after
    the old ones. *)
Lemma get_rules_for_group_run group specifics_rules base_day_rules h S B :
  deref_dict h specifics_rules = Some S →
  deref_dict h base_day_rules = Some B →
  group_well_formed h S group →
  get_rules_for_group group specifics_rules base_day_rules h
  = (Ok (Ref (length h + 5)),
     h ++ [ ODict ∅;
            ODict (group_day_rules h S group "weekday" ∪ B); ODict ∅;
            ODict (group_day_rules h S group "weekend" ∪ B); ODict ∅;
            ODict {[ "weekday" := Ref (length h + 1);
                     "weekend" := Ref (length h + 3) ]} ]).
Proof.
  intros HS HB Hwf. unfold get_rules_for_group.
  rewrite (run_bind_ok _ _ _ _ _ (get_or_empty_run _ _ _ _ HS)).
  set (gs := default (Ref (length h)) (S !! group)).
  assert (∃ G, deref_dict (h ++ [ODict ∅]) gs = Some G
               ∧ (∀ day v, day ∈ ["weekday"; "weekend"] →
                    G !! day = Some v → is_Some (deref_dict h v))
               ∧ ∀ day, day ∈ ["weekday"; "weekend"] →
                    day_overlay h G day = group_day_rules h S group day)
    as (G & HG & HGwf & HGday).
  { unfold gs, group_day_rules. destruct (S !! group) as [g|] eqn:Hg.
    - destruct (Hwf g Hg) as (gd & Hgd & Hdays). exists gd. cbn [default].
      split; [by apply deref_dict_app|]. split; [done|].
      intros day _. by rewrite Hgd.
    - exists ∅. cbn [default]. split; [apply deref_dict_fresh|].
      split; [intros day v _ Hv; by rewrite lookup_empty in Hv|done]. }
  assert (∀ h' day v, day ∈ ["weekday"; "weekend"] →
            G !! day = Some v → is_Some (deref_dict (h ++ h') v)) as HGwf'.
  { intros h' day v Hday Hv. destruct (HGwf day v Hday Hv) as [D HD].
    exists D. by apply deref_dict_app. }
  erewrite run_bind_ok; cycle 1.
  { eapply (merged_day_run _ _ _ _ B G);
      [by apply deref_dict_app | done | ].
    intros v. apply HGwf'. set_solver. }
  rewrite <- app_assoc. cbn [app].
  erewrite run_bind_ok; cycle 1.
  { eapply (merged_day_run _ _ _ _ B G).
    - by apply deref_dict_app.
    - replace (h ++ [ODict ∅; ODict (day_overlay (h ++ [ODict ∅]) G "weekday" ∪ B); ODict ∅])
        with ((h ++ [ODict ∅]) ++ [ODict (day_overlay (h ++ [ODict ∅]) G "weekday" ∪ B); ODict ∅])
        by (by rewrite <- app_assoc).
      by apply deref_dict_app.
    - intros v. apply HGwf'. set_solver. }
  rewrite <- app_assoc. cbn [app].
  unfold new_dict. run_monad.
  rewrite <- !app_assoc. cbn [app]. rewrite !length_app. cbn [length].
  rewrite (day_overlay_app h [ODict ∅]) by (intros ?; apply HGwf; set_solver).
  rewrite (day_overlay_app h [ODict ∅; _; _]) by (intros ?; apply HGwf; set_solver).
  rewrite !HGday by set_solver.
  repeat f_equal; lia.
Qed.

(** C10: on rule dictionaries of the expected shape, [get_rules_for_group]
    returns a new dictionary whose ["weekday"] and ["weekend"] entries are
    new dictionaries holding the base day rules overlaid with the group's
    rules for that day, the group's value winning on every shared key; for
    a group absent from [specifics_rules] both are copies of
    [base_day_rules]; and no object that existed before the call is
    changed, so neither input dictionary is mutated. *)
Theorem get_rules_for_group_overlay (group : string)
    (specifics_rules base_day_rules : value) (h : store) (S B : dict) :
  deref_dict h specifics_rules = Some S →
  deref_dict h base_day_rules = Some B →
  group_well_formed h S group →
  ∃ rules weekday weekend h',
    get_rules_for_group group specifics_rules base_day_rules h
    = (Ok (Ref rules), h')
    ∧ deref_dict h' (Ref rules)
      = Some {[ "weekday" := Ref weekday; "weekend" := Ref weekend ]}
    ∧ (∃ merged, deref_dict h' (Ref weekday) = Some merged
         ∧ (∀ k, merged !! k
                 = match group_day_rules h S group "weekday" !! k with
                   | Some v => Some v
                   | None => B !! k
                   end)
         ∧ (S !! group = None → merged = B))
    ∧ (∃ merged, deref_dict h' (Ref weekend) = Some merged
         ∧ (∀ k, merged !! k
                 = match group_day_rules h S group "weekend" !! k with
                   | Some v => Some v
                   | None => B !! k
                   end)
         ∧ (S !! group = None → merged = B))
    ∧ h `prefix_of` h'
    ∧ deref_dict h' specifics_rules = Some S
    ∧ deref_dict h' base_day_rules = Some B
    ∧ (length h ≤ weekday ∧ length h ≤ weekend ∧ length h ≤ rules)%nat
    ∧ weekday ≠ weekend.
Proof.
  intros HS HB Hwf.
  eexists (length h + 5), (length h + 1), (length h + 3), _.
  split; [by apply get_rules_for_group_run|].
  assert (∀ day, S !! group = None →
            group_day_rules h S group day ∪ B = B) as Habsent.
  { intros day Hg. unfold group_day_rules. rewrite Hg.
    apply (left_id_L ∅ (∪)). }
  split; [|split; [|split; [|split; [|split; [|split]]]]].
  - simpl. rewrite lookup_app_r by lia.
    by replace (length h + 5 - length h) with 5 by lia.
  - eexists. split; [|split; [apply lookup_overlay | apply Habsent]].
    simpl. rewrite lookup_app_r by lia.
    by replace (length h + 1 - length h) with 1 by lia.
  - eexists. split; [|split; [apply lookup_overlay | apply Habsent]].
    simpl. rewrite lookup_app_r by lia.
    by replace (length h + 3 - length h) with 3 by lia.
  - by apply prefix_app_r.
  - by apply deref_dict_app.
  - by apply deref_dict_app.
  - lia.
Qed.

Example get_rules_demo :
  (get_rules_for_group "commuter" (Ref 3) (Ref 0) demo_store).1
  = Ok (Ref 9)
  ∧ deref_dict
      (get_rules_for_group "commuter" (Ref 3) (Ref 0) demo_store).2 (Ref 5)
    = Some {[ "home" := VNum 1; "n_trip_out" := VNum 5 ]}
  ∧ deref_dict
      (get_rules_for_group "commuter" (Ref 3) (Ref 0) demo_store).2 (Ref 7)
    = Some demo_base.
Proof. repeat split; vm_compute; reflexivity. Qed.

(** A group entry that is not a dictionary makes the call fail. *)
Example get_rules_ill_typed :
  (get_rules_for_group "commuter" (Ref 0) (Ref 1)
     [ODict {[ "commuter" := VNone ]}; ODict ∅]).1
  = Raise (AttributeError "get").
Proof. vm_compute. reflexivity. Qed.

End Rules.

(** The commuters of the example store. *)
Lemma get_rules_for_group_overlay_witness :
  ∃ rules h',
    CreateRules.get_rules_for_group "commuter" (CreateRules.Ref 3)
      (CreateRules.Ref 0) demo_store
    = (Ok (CreateRules.Ref rules), h')
    ∧ demo_store `prefix_of` h'.
Proof.
  destruct (get_rules_for_group_overlay "commuter" (CreateRules.Ref 3)
              (CreateRules.Ref 0) demo_store
              {[ "commuter" := CreateRules.Ref 2 ]} demo_base
              eq_refl eq_refl)
    as (rules & weekday & weekend & h' & Hrun & _ & _ & _ & Hpre & _).
  - intros g Hg. rewrite lookup_singleton_eq in Hg. injection Hg as <-.
    exists {[ "weekday" := CreateRules.Ref 1 ]}. split; [reflexivity|].
    intros day v Hday Hv.
    apply elem_of_cons in Hday as [-> | Hday].
    + rewrite lookup_singleton_eq in Hv. injection Hv as <-.
      exists demo_commuter_weekday. reflexivity.
    + apply elem_of_cons in Hday as [-> | Hday].
      * rewrite lookup_singleton_ne in Hv by discriminate. discriminate Hv.
      * by apply elem_of_nil in Hday.
  - exists rules, h'. split; [exact Hrun | exact Hpre].
Defined.
(** ** The case-1 energy system *)



Lemma solved_test (r : Case1.SolverResults) :
  bool_decide (Case1.status r ≠ SolverStatus.ok)
  || bool_decide (Case1.termination_condition r ≠ TerminationCondition.optimal)
  = false ↔ solved r.
Proof.
  unfold solved. rewrite orb_false_iff, !bool_decide_eq_false.
  split; intros [H1 H2]; split;
    solve [by apply dec_stable | by intros ?].
Qed.

Section Case1Run.
Import Case1.

Variable input_table : DataFrame.
Variable Model_raises : EnergySystem → option exn.
Variable model_solve : OpModel → string → bool → result SolverResults.
Variable dump_raises : string → string → EnergySystem → option exn.
Variables dump_path lp_file_path dump_filename : string.
Variables at_home pv load consumption charging : Series.
Hypothesis H_at_home : input_table !! "BEV_at_home" = Some at_home.
Hypothesis H_pv : input_table !! "PV_kW" = Some pv.
Hypothesis H_load : input_table !! "Load_kW" = Some load.
Hypothesis H_consumption : input_table !! "consumption" = Some consumption.
Hypothesis H_charging : input_table !! "charging_power_kW" = Some charging.

Local Abbreviation model0 := (case1_model at_home pv load consumption).
Local Abbreviation self0 :=
  (case1_self dump_filename input_table at_home pv load consumption charging).
Local Abbreviation built0 := (es_built at_home pv load consumption).
Local Abbreviation answered0 := (es_answered at_home pv load consumption).
Local Abbreviation solved0 := (es_solved at_home pv load consumption).
Local Abbreviation run0 :=
  (run input_table Model_raises model_solve dump_raises dump_path
     lp_file_path dump_filename).

(** The run up to the compile step, which raises. *)
Lemma run_compile_raises x :
  Model_raises built0 = Some x →
  run0 = (Raise x, MkState (self0 None built0) log_until_compile [] [] []).
Proof.
  intros HM. unfold run, init, main, Model.
  do 11 stage.
  rewrite H_at_home; cbv beta iota.
  rewrite H_pv; cbv beta iota.
  rewrite H_load; cbv beta iota.
  rewrite H_consumption; cbv beta iota.
  rewrite H_charging; cbv beta iota.
  do 4 stage.
  change (Model_raises _) with (Model_raises built0). rewrite HM.
  reflexivity.
Qed.

(** The run up to the call of the solver. *)
Lemma run_until_solve :
  Model_raises built0 = None →
  run0
  = (solve_energysystem model_solve
       ≫= λ _, logging_info "extract_results"
       ≫= λ _, extract_results
       ≫= λ _, logging_info "Dump the energy system and the results."
       ≫= λ _, dump_results dump_raises dump_path)
      (MkState (self0 (Some model0) built0) log_until_solve [] [] []).
Proof.
  intros HM. unfold run, init, main, Model.
  do 11 stage.
  rewrite H_at_home; cbv beta iota.
  rewrite H_pv; cbv beta iota.
  rewrite H_load; cbv beta iota.
  rewrite H_consumption; cbv beta iota.
  rewrite H_charging; cbv beta iota.
  do 4 stage.
  change (Model_raises _) with (Model_raises built0). rewrite HM.
  cbv beta iota. stage. reflexivity.
Qed.

(** The solver raises: a [RuntimeError] is caught, printed, and the script
    exits; any other exception leaves the run as it is. *)
Lemma run_solver_raises x :
  Model_raises built0 = None →
  model_solve model0 "cbc" false = Raise x →
  run0
  = match x with
    | RuntimeError msg =>
        (Raise SystemExit,
         MkState (self0 (Some model0) built0) log_until_solve [msg] [] [])
    | _ =>
        (Raise x,
         MkState (self0 (Some model0) built0) log_until_solve [] [] [])
    end.
Proof.
  intros HM HS. rewrite (run_until_solve HM).
  unfold case1_self, es_built, es_answered, es_solved. stage.
  change (model_solve _ _ _) with (model_solve model0 "cbc" false).
  rewrite HS. by destruct x.
Qed.

(** The solver answers [r]. *)
Lemma run_solver_answers r :
  Model_raises built0 = None →
  model_solve model0 "cbc" false = Ok r →
  run0
  = if bool_decide (status r ≠ SolverStatus.ok)
       || bool_decide (termination_condition r ≠ TerminationCondition.optimal)
    then (Raise SystemExit,
          MkState (self0 (Some model0) (answered0 r)) log_until_solve
            [failure_message r] [] [])
    else match dump_raises dump_path dump_filename (solved0 r) with
         | Some x =>
             (Raise x,
              MkState (self0 (Some model0) (solved0 r))
                (log_until_solve
                 ++ ["extract_results";
                     "Dump the energy system and the results."])
                ["✅ The model was solved successfully."] [] [])
         | None =>
             (Ok tt,
              MkState (self0 (Some model0) (solved0 r))
                (log_until_solve
                 ++ ["extract_results";
                     "Dump the energy system and the results."])
                ["✅ The model was solved successfully."] []
                [(dump_path, dump_filename, solved0 r)])
         end.
Proof.
  intros HM HS. rewrite (run_until_solve HM).
  unfold case1_self, es_built, es_answered, es_solved. stage.
  change (model_solve _ _ _) with (model_solve model0 "cbc" false).
  rewrite HS. cbv beta iota.
  destruct (bool_decide _ || bool_decide _); cbv beta iota.
  - reflexivity.
  - do 3 stage.
    lazymatch goal with
    | |- ?m ?s = _ => let v := eval_stage (m s) in change (m s) with v
    end.
    cbv beta iota.
    change (dump_raises _ _ _)
      with (dump_raises dump_path dump_filename (solved0 r)).
    by destruct (dump_raises dump_path dump_filename (solved0 r)).
Qed.

(** However the run ends, the instance holds the energy system with the
    network of [create_oemof_objects], and no LP file is written. *)
Lemma run_state :
  ∃ m res lg pr dm,
    run0.2
    = MkState
        (self0 m
           (MkEnergySystem case1_index true
              (case1_network at_home pv load consumption) res))
        lg pr [] dm
    ∧ "Optimise the energy system" ∈ lg.
Proof.
  assert ("Optimise the energy system" ∈ log_until_compile) as Hc
    by (apply list_elem_of_In; simpl; auto 10).
  assert (∀ l, "Optimise the energy system" ∈ log_until_solve ++ l) as Hs
    by (intros l; apply list_elem_of_In; simpl; auto 10).
  pose proof (Hs []) as Hs0. rewrite app_nil_r in Hs0.
  destruct (Model_raises built0) as [x|] eqn:HM.
  { rewrite (run_compile_raises _ HM). by eexists _, _, _, _, _. }
  destruct (model_solve model0 "cbc" false) as [r|x] eqn:HS.
  - rewrite (run_solver_answers _ HM HS).
    destruct (bool_decide _ || bool_decide _);
      [by eexists _, _, _, _, _|].
    destruct (dump_raises _ _ _); by eexists _, _, _, _, _.
  - rewrite (run_solver_raises _ HM HS).
    destruct x; by eexists _, _, _, _, _.
Qed.

Lemma run_final_nodes :
  final_nodes run0.2 = case1_network at_home pv load consumption.
Proof. by destruct run_state as (m & res & lg & pr & dm & -> & _). Qed.

Lemma run_wallbox_power : wallbox_power (self run0.2) = Some 11%Q.
Proof. by destruct run_state as (m & res & lg & pr & dm & -> & _). Qed.

(** C1: when the solver answers, the run is classified by the answer: the
    success line is printed, and the results are extracted, exactly when
    the answer is ([ok], [optimal]), and the run can end normally only
    then.  For any other answer the run ends in [SystemExit] after printing
    the error text, which contains the printed status, the printed
    termination condition and the solver's message; the stages after the
    solve are not entered: the results object the solver left in the energy
    system gets no [main] and no [meta] item, and nothing is dumped.  On
    success both items are set and the energy system is handed to
    [es.dump] under the given file name; the run ends normally when the
    dump goes through, and with the exception of the dump otherwise. *)
Theorem solve_status_decides_run (r : SolverResults) :
  Model_raises built0 = None →
  model_solve model0 "cbc" false = Ok r →
  let out := run0 in
  model (self out.2) = Some model0
  ∧ (solved r ↔ "✅ The model was solved successfully." ∈ printed out.2)
  ∧ (solved r ↔ "extract_results" ∈ logged out.2)
  ∧ (out.1 = Ok tt → solved r)
  ∧ (solved r →
       ∃ e items,
         es (self out.2) = Some e
         ∧ results e = Some (r, items)
         ∧ items !! "main" = Some (processing_results model0)
         ∧ items !! "meta" = Some (processing_meta_results model0)
         ∧ match dump_raises dump_path dump_filename e with
           | None =>
               out.1 = Ok tt
               ∧ dumped out.2 = [(dump_path, dump_filename, e)]
           | Some x => out.1 = Raise x ∧ dumped out.2 = []
           end)
  ∧ (¬ solved r →
       out.1 = Raise SystemExit
       ∧ printed out.2 = [failure_message r]
       ∧ (∃ e, es (self out.2) = Some e ∧ results e = Some (r, ∅))
       ∧ dumped out.2 = []
       ∧ ("extract_results" ∉ logged out.2)
       ∧ ("Dump the energy system and the results." ∉ logged out.2))
  ∧ (∃ before between1 between2 after,
       failure_message r
       = before +:+ SolverStatus.str (status r)
         +:+ between1 +:+ TerminationCondition.str (termination_condition r)
         +:+ between2 +:+ default "None" (message r) +:+ after).
Proof.
  intros HM HS. cbv zeta. rewrite (run_solver_answers r HM HS).
  assert (∃ before between1 between2 after,
            failure_message r
            = before +:+ SolverStatus.str (status r)
              +:+ between1
              +:+ TerminationCondition.str (termination_condition r)
              +:+ between2 +:+ default "None" (message r) +:+ after)
    as Hmsg.
  { exists (nl +:+ "❌ The energy system could not find a solution."
            +:+ nl +:+ "Solver status: "),
      (nl +:+ "Termination condition: "), (nl +:+ "Message: "),
      (nl +:+ "⛔ Simulation aborted." +:+ nl).
    reflexivity. }
  assert (("extract_results" ∉ log_until_solve)
          ∧ ("Dump the energy system and the results." ∉ log_until_solve))
    as [Hlog1 Hlog2].
  { unfold log_until_solve.
    split; rewrite !elem_of_cons, elem_of_nil; intros H;
      repeat (destruct H as [H|H]; [discriminate H|]); done. }
  pose proof (solved_test r) as Htest.
  destruct (bool_decide _ || bool_decide _); cbn [fst snd].
  - assert (¬ solved r) as Hnot.
    { intros Hs. apply Htest in Hs. discriminate. }
    cbn [self model printed logged dumped es]. unfold case1_self.
    cbn [model es].
    split; [done|].
    split.
    { split; [done|]. intros Hin. exfalso.
      apply list_elem_of_singleton in Hin.
      unfold failure_message, nl in Hin. discriminate Hin. }
    split; [split; [done | intros Hin; by apply Hlog1 in Hin]|].
    split; [discriminate|]. split; [done|].
    split; [|exact Hmsg].
    intros _. split; [done|]. split; [done|].
    split; [by exists (answered0 r)|]. done.
  - assert (solved r) as Hs by (by apply Htest).
    split; [by destruct (dump_raises _ _ _)|].
    split.
    { split; [|done]. intros _.
      destruct (dump_raises _ _ _); cbn [snd printed];
        apply list_elem_of_In; simpl; auto. }
    split.
    { split; [|done]. intros _.
      destruct (dump_raises _ _ _); cbn [snd logged];
        apply list_elem_of_In; simpl; auto 20. }
    split; [done|].
    split; [|split; [done | exact Hmsg]].
    intros _. eexists (solved0 r), _.
    split; [by destruct (dump_raises _ _ _)|].
    split; [reflexivity|].
    split; [rewrite lookup_insert_ne by done; apply lookup_insert_eq|].
    split; [apply lookup_insert_eq|].
    by destruct (dump_raises _ _ _).
Qed.

(** C3: the network holds exactly one storage node; it is labelled
    [BEV_Storage], its only input and its only output are on the mobility
    bus (which is a node of the network), its capacity is 45, its level
    bounds are 0.4 and 0.95,
    its initial level is 0.95, and its fixed loss is, at every timestep, the
    consumption at that timestep times 4. *)
Theorem storage_is_bev_storage :
  let final := final_nodes run0.2 in
  let mobility := MkBus "mobility" (Some true) in
  ∃ losses,
    List.filter is_storage final
    = [ GenericStorage "BEV_Storage"
          [(mobility, MkFlow None None None None)]
          [(mobility, MkFlow None None None None)]
          45%Q 0.4%Q 0.95%Q 0.95%Q losses ]
    ∧ NBus mobility ∈ final
    ∧ length losses = length consumption
    ∧ ∀ t c, consumption !! t = Some c → losses !! t = Some (c * 4)%Q.
Proof.
  cbv zeta. rewrite run_final_nodes.
  exists (times4 consumption).
  split; [reflexivity|]. split; [|split].
  - unfold case1_network, b_bev. set_solver.
  - unfold times4. apply length_fmap.
  - intros t c Hc. unfold times4. by rewrite list_lookup_fmap, Hc.
Qed.

(** C4: the network holds exactly one node labelled [wallbox]; it is a
    source with a single outgoing flow; that flow goes to the mobility bus,
    not to the electricity bus; it has no fixed profile, its [max] profile
    is the [BEV_at_home] series, its nominal value is the wallbox power, and
    its variable cost is the cost of the flow from the grid. *)
Theorem wallbox_feeds_mobility :
  let out := run0 in
  let labelled l := List.filter (λ n, String.eqb (node_label n) l)
                      (final_nodes out.2) in
  ∃ bus flow grid_bus grid_flow,
    labelled "wallbox" = [Source "wallbox" [(bus, flow)]]
    ∧ bus = MkBus "mobility" (Some true)
    ∧ NBus bus ∈ final_nodes out.2
    ∧ bus_label bus ≠ "electricity"
    ∧ fix_ flow = None
    ∧ max_ flow = Some at_home
    ∧ is_Some (nominal_value flow)
    ∧ nominal_value flow = wallbox_power (self out.2)
    ∧ labelled "grid-supply" = [Source "grid-supply" [(grid_bus, grid_flow)]]
    ∧ is_Some (variable_costs flow)
    ∧ variable_costs flow = variable_costs grid_flow.
Proof.
  cbv zeta. rewrite run_final_nodes, run_wallbox_power.
  eexists _, _, _, _. split; [reflexivity|].
  repeat split; try done.
  unfold case1_network, b_bev. set_solver.
Qed.

(** C6: none of the seven flows of the network has both a fixed profile
    and a max profile. *)
Theorem no_flow_both_fix_and_max :
  let flows := concat (node_flows <$> final_nodes run0.2) in
  length flows = 7%nat
  ∧ ∀ f, f ∈ flows → ¬ (is_Some (fix_ f) ∧ is_Some (max_ f)).
Proof.
  cbv zeta. rewrite run_final_nodes. split; [reflexivity|].
  intros f Hf [[x Hfix] [y Hmax]]. cbn in Hf.
  repeat (apply elem_of_cons in Hf as [-> | Hf]; [discriminate|]).
  by apply elem_of_nil in Hf.
Qed.

(** The two buses are declared balanced: [balanced] is [True] or left at
    its default. *)
Lemma buses_declared_balanced :
  ∀ b, NBus b ∈ final_nodes run0.2 → balanced b ≠ Some false.
Proof.
  intros b. rewrite run_final_nodes. unfold case1_network. intros Hb.
  repeat (apply elem_of_cons in Hb as [Hb | Hb];
          [by (inversion Hb; subst) |]).
  by apply elem_of_nil in Hb.
Qed.

End Case1Run.

(** *** The statements on concrete tables

    [full_table] has the five columns with 672 rows each, [short_table]
    has them with two rows each.  The compile step is one that fails on
    series that are too short, the solver one that always gives the same
    answer, the dump one that goes through. *)

Lemma solve_status_decides_run_witness :
  (let out := Case1.run full_table short_series_error
                (always infeasible_answer) dump_succeeds "dumps" "lp_files"
                "case2_es_charger_limited_BEV_dumb" in
   out.1 = Raise SystemExit ∧ Case1.dumped out.2 = [])
  ∧ (let out := Case1.run full_table short_series_error
                  (always optimal_answer) dump_succeeds "dumps" "lp_files"
                  "case2_es_charger_limited_BEV_dumb" in
     out.1 = Ok tt ∧ length (Case1.dumped out.2) = 1%nat).
Proof.
  split.
  - pose proof (solve_status_decides_run full_table short_series_error
                  (always infeasible_answer) dump_succeeds
                  "dumps" "lp_files" "case2_es_charger_limited_BEV_dumb"
                  (replicate 672 1%Q) (replicate 672 10%Q)
                  (replicate 672 5%Q) (replicate 672 0%Q)
                  (replicate 672 11%Q)
                  eq_refl eq_refl eq_refl eq_refl eq_refl
                  infeasible_answer) as H.
    cbv zeta in H. destruct H as (_ & _ & _ & _ & _ & Hfail & _).
    + vm_compute. reflexivity.
    + reflexivity.
    + destruct Hfail as (H1 & _ & _ & H2 & _).
      * unfold solved, infeasible_answer. cbn. intros [H _].
        discriminate H.
      * split; assumption.
  - pose proof (solve_status_decides_run full_table short_series_error
                  (always optimal_answer) dump_succeeds
                  "dumps" "lp_files" "case2_es_charger_limited_BEV_dumb"
                  (replicate 672 1%Q) (replicate 672 10%Q)
                  (replicate 672 5%Q) (replicate 672 0%Q)
                  (replicate 672 11%Q)
                  eq_refl eq_refl eq_refl eq_refl eq_refl
                  optimal_answer) as H.
    cbv zeta in H. destruct H as (_ & _ & _ & _ & Hok & _).
    + vm_compute. reflexivity.
    + reflexivity.
    + destruct Hok as (e & items & _ & _ & _ & _ & Hdump).
      * split; reflexivity.
      * unfold dump_succeeds in *. destruct Hdump as [H1 H2].
        split; [exact H1|]. by rewrite H2.
Defined.

Lemma storage_is_bev_storage_witness :
  length
    (List.filter Case1.is_storage
       (Case1.final_nodes
          (Case1.run short_table short_series_error (always optimal_answer)
             dump_succeeds "dumps" "lp_files"
             "case2_es_charger_limited_BEV_dumb").2))
  = 1%nat.
Proof.
  destruct (storage_is_bev_storage short_table short_series_error
              (always optimal_answer) dump_succeeds
              "dumps" "lp_files" "case2_es_charger_limited_BEV_dumb"
              [0; 1]%Q [0; 10]%Q [5; 5]%Q [0.5; 0]%Q [0; 11]%Q
              eq_refl eq_refl eq_refl eq_refl eq_refl) as (losses & Hf & _).
  rewrite Hf. reflexivity.
Defined.

Lemma wallbox_feeds_mobility_witness :
  ∃ bus flow,
    List.filter (λ n, String.eqb (Case1.node_label n) "wallbox")
      (Case1.final_nodes
         (Case1.run short_table short_series_error (always optimal_answer)
            dump_succeeds "dumps" "lp_files"
            "case2_es_charger_limited_BEV_dumb").2)
    = [Case1.Source "wallbox" [(bus, flow)]]
    ∧ Case1.bus_label bus = "mobility"
    ∧ Case1.max_ flow = Some [0; 1]%Q.
Proof.
  destruct (wallbox_feeds_mobility short_table short_series_error
              (always optimal_answer) dump_succeeds
              "dumps" "lp_files" "case2_es_charger_limited_BEV_dumb"
              [0; 1]%Q [0; 10]%Q [5; 5]%Q [0.5; 0]%Q [0; 11]%Q
              eq_refl eq_refl eq_refl eq_refl eq_refl)
    as (bus & flow & gb & gf & Hw & Hbus & _ & _ & _ & Hmax & _).
  exists bus, flow. split; [exact Hw|]. split; [|exact Hmax].
  rewrite Hbus. reflexivity.
Defined.

Lemma no_flow_both_fix_and_max_witness :
  length
    (concat (Case1.node_flows
               <$> Case1.final_nodes
                     (Case1.run short_table short_series_error
                        (always optimal_answer) dump_succeeds "dumps"
                        "lp_files" "case2_es_charger_limited_BEV_dumb").2))
  = 7%nat.
Proof.
  destruct (no_flow_both_fix_and_max short_table short_series_error
              (always optimal_answer) dump_succeeds
              "dumps" "lp_files" "case2_es_charger_limited_BEV_dumb"
              [0; 1]%Q [0; 10]%Q [5; 5]%Q [0.5; 0]%Q [0; 11]%Q
              eq_refl eq_refl eq_refl eq_refl eq_refl) as [Hlen _].
  exact Hlen.
Defined.

(** ** Missing and short input series *)

Section Case1Columns.
Import Case1.


(** C2 as stated fails: a table whose series are all present but have 2
    rows, fewer than the 672 periods of the time index, passes
    [define_timeseries] and [create_oemof_objects]: whatever the library
    calls do, the run enters the compile stage with the full network
    built.  With a compile step that fails on short series, the run ends
    there, in the exception of [Model(es)]. *)
Lemma short_series_reach_compilation :
  periods
    (self (run short_table short_series_error (always optimal_answer)
             dump_succeeds "dumps" "lp_files"
             "case2_es_charger_limited_BEV_dumb").2)
  = Some 672%nat
  ∧ missing_or_short 672 short_table
  ∧ ¬ rejected_before_compilation short_table
  ∧ (∀ Model_raises model_solve dump_raises dump_path lp_file_path
       dump_filename,
       let out := run short_table Model_raises model_solve dump_raises
                    dump_path lp_file_path dump_filename in
       final_nodes out.2
       = case1_network [0; 1]%Q [0; 10]%Q [5; 5]%Q [0.5; 0]%Q
       ∧ "Optimise the energy system" ∈ logged out.2)
  ∧ run short_table short_series_error (always optimal_answer)
      dump_succeeds "dumps" "lp_files" "case2_es_charger_limited_BEV_dumb"
    = (Raise (External "IndexError"),
       MkState
         (case1_self "case2_es_charger_limited_BEV_dumb" short_table
            [0; 1]%Q [0; 10]%Q [5; 5]%Q [0.5; 0]%Q [0; 11]%Q None
            (es_built [0; 1]%Q [0; 10]%Q [5; 5]%Q [0.5; 0]%Q))
         log_until_compile [] [] []).
Proof.
  assert (∀ Model_raises model_solve dump_raises dump_path lp_file_path
            dump_filename,
            let out := run short_table Model_raises model_solve dump_raises
                         dump_path lp_file_path dump_filename in
            final_nodes out.2
            = case1_network [0; 1]%Q [0; 10]%Q [5; 5]%Q [0.5; 0]%Q
            ∧ "Optimise the energy system" ∈ logged out.2) as Hall.
  { intros Mr ms dr dp lp df. cbv zeta.
    destruct (run_state short_table Mr ms dr dp lp df
                [0; 1]%Q [0; 10]%Q [5; 5]%Q [0.5; 0]%Q [0; 11]%Q
                eq_refl eq_refl eq_refl eq_refl eq_refl)
      as (m & res & lg & pr & dm & -> & Hlg).
    by split. }
  split; [vm_compute; reflexivity|]. split; [|split; [|split]].
  - exists "PV_kW". split; [apply list_elem_of_In; simpl; auto|].
    right. exists [0; 10]%Q. split; [reflexivity | cbn; lia].
  - intros Hrej.
    destruct (Hrej short_series_error (always optimal_answer) dump_succeeds
                "dumps" "lp_files" "case2_es_charger_limited_BEV_dumb")
      as (_ & Hlog & _).
    apply Hlog. apply Hall.
  - exact Hall.
  - apply (run_compile_raises short_table short_series_error
             (always optimal_answer) dump_succeeds "dumps" "lp_files"
             "case2_es_charger_limited_BEV_dumb"
             [0; 1]%Q [0; 10]%Q [5; 5]%Q [0.5; 0]%Q [0; 11]%Q
             eq_refl eq_refl eq_refl eq_refl eq_refl).
    vm_compute. reflexivity.
Qed.

Variable input_table : DataFrame.
Variable Model_raises : EnergySystem → option exn.
Variable model_solve : OpModel → string → bool → result SolverResults.
Variable dump_raises : string → string → EnergySystem → option exn.
Variables dump_path lp_file_path dump_filename : string.

Local Abbreviation run1 :=
  (run input_table Model_raises model_solve dump_raises dump_path
     lp_file_path dump_filename).

(** The run on a table that lacks a column stops at the first column, in
    reading order, that it lacks. *)
Lemma run_missing_column :
  (∃ c, c ∈ required_columns ∧ input_table !! c = None) →
  ∃ i c,
    required_columns !! i = Some c
    ∧ input_table !! c = None
    ∧ (∀ j c', (j < i)%nat → required_columns !! j = Some c' →
         is_Some (input_table !! c'))
    ∧ run1.1 = Raise (KeyError c)
    ∧ final_nodes run1.2 = []
    ∧ model (self run1.2) = None
    ∧ logged run1.2
      = ["Initialize the energy system"; "define_time_index";
         "define_timeseries"; "Import general timeseries";
         "Import BEV-timeseries"]
    ∧ printed run1.2 = []
    ∧ lp_files run1.2 = []
    ∧ dumped run1.2 = [].
Proof.
  intros (c & Hc & Hmiss).
  unfold run, init, main, Model.
  do 11 stage.
  destruct (input_table !! "BEV_at_home") eqn:H1; cbv beta iota;
    [|by missing_at 0%nat "BEV_at_home"].
  destruct (input_table !! "PV_kW") eqn:H2; cbv beta iota;
    [|by missing_at 1%nat "PV_kW"].
  destruct (input_table !! "Load_kW") eqn:H3; cbv beta iota;
    [|by missing_at 2%nat "Load_kW"].
  destruct (input_table !! "consumption") eqn:H4; cbv beta iota;
    [|by missing_at 3%nat "consumption"].
  destruct (input_table !! "charging_power_kW") eqn:H5; cbv beta iota;
    [|by missing_at 4%nat "charging_power_kW"].
  exfalso. unfold required_columns in Hc.
  repeat (apply elem_of_cons in Hc as [-> | Hc]; [congruence|]).
  by apply elem_of_nil in Hc.
Qed.

(** C2, amended: when a required series is missing from the table, the run
    stops in [define_timeseries] with the [KeyError] of the first missing
    column in reading order (every column read before it is in the table):
    no node has been added to the energy system, no model has been
    compiled, and the stage that creates the network has not been
    entered. *)
Theorem missing_column_is_key_error :
  (∃ c, c ∈ required_columns ∧ input_table !! c = None) →
  let out := run1 in
  ∃ i c,
    required_columns !! i = Some c
    ∧ input_table !! c = None
    ∧ (∀ j c', (j < i)%nat → required_columns !! j = Some c' →
         is_Some (input_table !! c'))
    ∧ out.1 = Raise (KeyError c)
    ∧ final_nodes out.2 = []
    ∧ model (self out.2) = None
    ∧ ("Create oemof objects" ∉ logged out.2)
    ∧ ("Optimise the energy system" ∉ logged out.2).
Proof.
  intros Hmiss. cbv zeta.
  destruct (run_missing_column Hmiss)
    as (i & c & Hi & Hc & Hmin & Hout & Hnodes & Hmodel & Hlog & _).
  exists i, c. rewrite Hlog.
  split; [done|]. split; [done|]. split; [done|]. split; [done|].
  split; [done|]. split; [done|].
  split; rewrite !elem_of_cons, elem_of_nil; intros H;
    repeat (destruct H as [H|H]; [discriminate H|]); done.
Qed.

End Case1Columns.

(** Without its [consumption] column the table is rejected: [consumption]
    is the fourth column read, and the three before it are there. *)
Lemma missing_column_is_key_error_witness :
  ∃ i c, Case1.required_columns !! i = Some c
       ∧ table_without_consumption !! c = None
       ∧ (Case1.run table_without_consumption short_series_error
            (always optimal_answer) dump_succeeds "dumps"
            "lp_files" "case2_es_charger_limited_BEV_dumb").1
         = Raise (KeyError c).
Proof.
  destruct (missing_column_is_key_error table_without_consumption
              short_series_error (always optimal_answer) dump_succeeds
              "dumps" "lp_files" "case2_es_charger_limited_BEV_dumb")
    as (i & c & Hi & Hmiss & _ & Hout & _).
  - exists "consumption". split; [|reflexivity].
    apply list_elem_of_In. simpl. auto 10.
  - exists i, c. split; [exact Hi|]. split; [exact Hmiss | exact Hout].
Defined.

(** * Further properties *)

(** ** The profile database *)

(** X1: [get_driving_profiles] returns exactly the database entries that
    are records tagged [kind == "driving"], and no name is both a driving
    and a consumption profile. *)
Theorem driving_profiles_exact_and_apart (db_db : gmap string pyval)
    (name : string) (v : pyval) :
  (CalculateConsumption.get_driving_profiles db_db !! name = Some v
   ↔ db_db !! name = Some v ∧ record_of_kind "driving" v)
  ∧ ¬ (is_Some (CalculateConsumption.get_driving_profiles db_db !! name)
       ∧ is_Some (CalculateConsumption.get_consumption_profiles db_db
                    !! name)).
Proof.
  split.
  - unfold CalculateConsumption.get_driving_profiles.
    rewrite map_lookup_filter_Some. simpl. by rewrite has_kind_true.
  - unfold CalculateConsumption.get_driving_profiles,
      CalculateConsumption.get_consumption_profiles.
    intros [[a Ha] [b Hb]].
    apply map_lookup_filter_Some in Ha as [Ha Hka].
    apply map_lookup_filter_Some in Hb as [Hb Hkb].
    simpl in Hka, Hkb. rewrite Ha in Hb. injection Hb as <-.
    apply has_kind_true in Hka as (d & -> & Hd).
    apply has_kind_true in Hkb as (d' & [= <-] & Hd').
    rewrite Hd in Hd'. discriminate Hd'.
Qed.

(** X2: filtering twice changes nothing, and the consumption profiles hold
    no driving profile: [get_consumption_profiles] applied to its own result
    returns it unchanged, and [get_driving_profiles] applied to it returns
    the empty dictionary. *)
Theorem consumption_filter_idempotent (db_db : gmap string pyval) :
  SaveProfiles.get_consumption_profiles
    (SaveProfiles.get_consumption_profiles db_db)
  = SaveProfiles.get_consumption_profiles db_db
  ∧ CalculateConsumption.get_driving_profiles
      (SaveProfiles.get_consumption_profiles db_db)
    = ∅.
Proof.
  split.
  - unfold SaveProfiles.get_consumption_profiles. apply map_filter_id.
    intros name v Hv. by apply map_lookup_filter_Some in Hv as [_ Hk].
  - unfold CalculateConsumption.get_driving_profiles,
      SaveProfiles.get_consumption_profiles.
    apply map_eq. intros name. rewrite lookup_empty.
    apply map_lookup_filter_None. right. intros v Hv Hd. simpl in Hd.
    apply map_lookup_filter_Some in Hv as [_ Hc]. simpl in Hc.
    apply has_kind_true in Hd as (d & -> & Hd).
    apply has_kind_true in Hc as (d' & [= <-] & Hd').
    rewrite Hd in Hd'. discriminate Hd'.
Qed.

Lemma records_of_lookup (m : gmap string pyval) name d :
  records_of m !! name = Some d ↔ m !! name = Some (PyDict d).
Proof.
  unfold records_of. rewrite lookup_omap.
  destruct (m !! name) as [[| | | |d']|]; simpl; split;
    intros H; try discriminate H; by injection H as ->.
Qed.

(** X3: the two steps compose on every database: extracting the timeseries
    of [get_consumption_profiles db] always returns normally, no consumption
    profile is lost on the way in, and a name is bound to [ts] in the result
    exactly when the database binds it to a record tagged ["consumption"]
    whose ['timeseries'] entry is [ts]. *)
Theorem consumption_timeseries_pipeline (db_db : gmap string pyval)
    (out : list string) :
  let profiles := SaveProfiles.get_consumption_profiles db_db in
  dom (records_of profiles) = dom profiles
  ∧ ∃ timeseries_data out',
      SaveProfiles.get_timeserie_from_consumption_profiles
        (records_of profiles) out
      = (Ok timeseries_data, out')
      ∧ ∀ name ts,
          timeseries_data !! name = Some ts
          ↔ ∃ d, db_db !! name = Some (PyDict d)
                 ∧ d !! "kind" = Some (PyStr "consumption")
                 ∧ d !! "timeseries" = Some ts.
Proof.
  cbv zeta. split.
  - apply set_eq. intros name. rewrite !elem_of_dom. split.
    + intros [d Hd]. apply records_of_lookup in Hd. eauto.
    + intros [v Hv]. pose proof Hv as Hv'.
      apply map_lookup_filter_Some in Hv' as [_ Hk]. simpl in Hk.
      apply has_kind_true in Hk as (d & -> & _).
      exists d. by apply records_of_lookup.
  - destruct (timeserie_loop
                (map_to_list
                   (records_of (SaveProfiles.get_consumption_profiles db_db)))
                ∅ out (NoDup_fst_map_to_list _)) as (td & Hrun & Htd).
    exists td.
    exists (SaveProfiles.get_timeserie_from_consumption_profiles
              (records_of (SaveProfiles.get_consumption_profiles db_db))
              out).2.
    split.
    + unfold SaveProfiles.get_timeserie_from_consumption_profiles.
      rewrite (run_bind_ok _ _ _ _ _ Hrun).
      destruct (bool_decide (size td = 0)); reflexivity.
    + intros name ts. rewrite Htd. split.
      * intros [(p & Hp & Hts) | [_ Hacc]];
          [|by rewrite lookup_empty in Hacc].
        apply elem_of_map_to_list, records_of_lookup in Hp.
        apply map_lookup_filter_Some in Hp as [Hp Hk].
        cbn [snd] in Hk.
        apply has_kind_true in Hk as (d & [= <-] & Hd). eauto.
      * intros (d & Hdb & Hk & Hts). left. exists d. split; [|done].
        apply elem_of_map_to_list, records_of_lookup.
        apply map_lookup_filter_Some. split; [done|]. cbn [snd].
        apply has_kind_true. by exists d.
Qed.

(** ** Extraction and saving of the timeseries *)

Section TimeserieMore.
Import SaveProfiles.

Lemma carrying_lacking_length (l : list (string * gmap string pyval)) :
  length (carrying l) + length (lacking l) = length l.
Proof.
  unfold carrying, lacking. rewrite length_fmap.
  induction l as [|[k p] l IH]; [reflexivity|].
  destruct (p !! "timeseries") as [ts|] eqn:Hts.
  - rewrite filter_cons_True by (simpl; rewrite Hts; eauto).
    rewrite filter_cons_False by (simpl; rewrite Hts; discriminate).
    simpl. lia.
  - rewrite filter_cons_False by (simpl; rewrite Hts; by intros [? ?]).
    rewrite filter_cons_True by (simpl; by rewrite Hts).
    simpl. lia.
Qed.

Lemma lacking_all (l : list (string * gmap string pyval)) :
  (∀ k p, (k, p) ∈ l → p !! "timeseries" = None) → lacking l = l.*1.
Proof.
  unfold lacking. induction l as [|[k p] l IH]; intros Hall; [reflexivity|].
  rewrite filter_cons_True by (simpl; apply (Hall k); left).
  rewrite !fmap_cons, IH; [done|]. intros k' p' Hin. apply (Hall k'). by right.
Qed.

Lemma timeserie_loop_size l : ∀ acc out td out',
  NoDup l.*1 →
  (∀ k, k ∈ l.*1 → acc !! k = None) →
  for_each timeserie_step l acc out = (Ok td, out') →
  size td = size acc + length (carrying l).
Proof.
  induction l as [|[k0 p0] l IH]; intros acc out td out' Hnd Hacc Hrun.
  - simpl in Hrun. injection Hrun as <- _. simpl. lia.
  - apply NoDup_cons in Hnd as [Hk0 Hnd]. simpl in Hk0.
    cbn [for_each] in Hrun. unfold carrying.
    destruct (p0 !! "timeseries") as [ts0|] eqn:Hts0.
    + rewrite (bind_ok _ _ _ _ _ (timeserie_step_some _ _ ts0 _ _ Hts0))
        in Hrun.
      apply IH in Hrun; [|done|].
      * rewrite Hrun, map_size_insert_None by (apply Hacc; left).
        rewrite filter_cons_True by (simpl; rewrite Hts0; eauto).
        unfold carrying. simpl. lia.
      * intros k Hk. rewrite lookup_insert_ne; [apply Hacc; by right|].
        intros ->. by apply Hk0.
    + rewrite (bind_ok _ _ _ _ _ (timeserie_step_none _ _ _ _ Hts0)) in Hrun.
      apply IH in Hrun; [|done|intros k Hk; apply Hacc; by right].
      rewrite Hrun.
      rewrite filter_cons_False by (simpl; rewrite Hts0; by intros [? ?]).
      reflexivity.
Qed.

(** X4: every profile is either extracted or reported: the number of
    entries of the result plus the number of warnings printed is the number
    of profiles.  The closing notice is printed exactly when no profile has
    a ['timeseries'] entry (in particular for an empty dictionary), and then
    the result is empty. *)
Theorem extracted_or_reported
    (consumption_profiles : gmap string (gmap string pyval))
    (out : list string) :
  let run := get_timeserie_from_consumption_profiles consumption_profiles out in
  let warnings :=
    warn_no_timeseries <$> lacking (map_to_list consumption_profiles) in
  ∃ timeseries_data,
    run.1 = Ok timeseries_data
    ∧ size timeseries_data + length warnings = size consumption_profiles
    ∧ ((∀ name profile, consumption_profiles !! name = Some profile →
          profile !! "timeseries" = None) →
       timeseries_data = ∅
       ∧ run.2 = out ++ warnings ++ [no_timeseries_at_all])
    ∧ ((∃ name profile, consumption_profiles !! name = Some profile
                        ∧ is_Some (profile !! "timeseries")) →
       timeseries_data ≠ ∅ ∧ run.2 = out ++ warnings).
Proof.
  cbv zeta.
  destruct (timeserie_loop (map_to_list consumption_profiles) ∅ out
              (NoDup_fst_map_to_list _)) as (td & Hrun & Htd).
  pose proof (timeserie_loop_size _ _ _ _ _ (NoDup_fst_map_to_list _)
                (λ k _, lookup_empty k) Hrun) as Hsize.
  rewrite map_size_empty in Hsize.
  unfold get_timeserie_from_consumption_profiles.
  rewrite (run_bind_ok _ _ _ _ _ Hrun).
  exists td. split; [by destruct (bool_decide (size td = 0))|].
  split; [|split].
  - rewrite length_fmap, Hsize, <- length_map_to_list.
    apply carrying_lacking_length.
  - intros Hall.
    assert (td = ∅) as ->.
    { apply map_eq. intros k. rewrite lookup_empty.
      destruct (td !! k) as [ts|] eqn:Hk; [|done].
      apply Htd in Hk as [(p & Hp & Hts) | [_ Hacc]];
        [|by rewrite lookup_empty in Hacc].
      apply elem_of_map_to_list in Hp. rewrite (Hall _ _ Hp) in Hts.
      discriminate Hts. }
    split; [done|]. rewrite map_size_empty, bool_decide_eq_true_2 by done.
    unfold print. run_monad. cbn [snd]. by rewrite <- app_assoc.
  - intros (name & p & Hp & [ts Hts]).
    assert (td !! name = Some ts) as Hin.
    { apply Htd. left. exists p. by rewrite elem_of_map_to_list. }
    assert (td ≠ ∅) as Hne.
    { intros ->. by rewrite lookup_empty in Hin. }
    split; [done|].
    rewrite bool_decide_eq_false_2 by (by rewrite map_size_empty_iff).
    run_monad. cbn [snd]. reflexivity.
Qed.

End TimeserieMore.


(** ** Profile information *)

Section ProfileInfo.
Import AnalyseProfiles.

Lemma list_profiles_elem (db_db : gmap string pyval) name :
  name ∈ list_profiles db_db ↔ is_Some (db_db !! name).
Proof.
  unfold list_profiles. rewrite list_elem_of_fmap. split.
  - intros ([k v] & -> & Hin). apply elem_of_map_to_list in Hin. eauto.
  - intros [v Hv]. exists (name, v). split; [done|].
    by apply elem_of_map_to_list.
Qed.

Lemma subscript_no_value_error data key msg :
  subscript data key ≠ PyX.Raises (PyX.ValueError msg).
Proof.
  destruct data as [| | |df|d]; simpl; try discriminate.
  - by destruct (df !! key).
  - by destruct (d !! key).
Qed.

(** X6: [show_profile_info] raises [ValueError] exactly for the names that
    [list_profiles] does not list, and the message then names the
    profile. *)
Theorem value_error_iff_not_listed (db_db : gmap string pyval)
    (profile_name : string) :
  ((profile_name ∉ list_profiles db_db)
   ↔ show_profile_info db_db profile_name
     = PyX.Raises (PyX.ValueError (not_found profile_name)))
  ∧ (∀ msg, show_profile_info db_db profile_name
            = PyX.Raises (PyX.ValueError msg) →
       (profile_name ∉ list_profiles db_db) ∧ msg = not_found profile_name).
Proof.
  rewrite list_profiles_elem. unfold show_profile_info, contains.
  destruct (db_db !! profile_name) as [data|] eqn:Hdata; cbn [negb].
  - assert (∀ msg,
              PyX.and_then (subscript data "kind") (λ kind,
              PyX.and_then (subscript data "user_rules") (λ rules,
              PyX.Return ({[ "name" := Val (PyStr profile_name);
                             "kind" := kind; "rules" := rules ]}
                          : gmap string pyobj)))
              ≠ PyX.Raises (PyX.ValueError msg)) as Hno.
    { intros msg.
      destruct (subscript data "kind") as [kind|e] eqn:Hk; cbn.
      - destruct (subscript data "user_rules") as [rules|e] eqn:Hr; cbn;
          [discriminate|].
        intros [= ->]. by apply subscript_no_value_error in Hr.
      - intros [= ->]. by apply subscript_no_value_error in Hk. }
    split.
    + split; [intros Hn; exfalso; apply Hn; eauto|].
      intros H. by apply Hno in H.
    + intros msg H. by apply Hno in H.
  - split.
    + split; [done|]. intros _. by apply is_Some_None.
    + intros msg [= <-]. split; [|done]. rewrite list_profiles_elem, Hdata.
      by apply is_Some_None.
Qed.

(** X7: when [show_profile_info] returns, the profile is a listed one and
    the result has exactly the keys [name], [kind] and [rules]; [name] is
    the requested name, and for a record [kind] and [rules] are its [kind]
    and [user_rules] entries. *)
Theorem profile_info_content (db_db : gmap string pyval)
    (profile_name : string) (info : gmap string pyobj) :
  show_profile_info db_db profile_name = PyX.Return info →
  profile_name ∈ list_profiles db_db
  ∧ dom info = {[ "name"; "kind"; "rules" ]}
  ∧ info !! "name" = Some (Val (PyStr profile_name))
  ∧ ∀ d, db_db !! profile_name = Some (PyDict d) →
         info !! "kind" = Val <$> d !! "kind"
         ∧ info !! "rules" = Val <$> d !! "user_rules".
Proof.
  rewrite list_profiles_elem. unfold show_profile_info, contains.
  destruct (db_db !! profile_name) as [data|] eqn:Hdata; cbn [negb];
    [|discriminate].
  destruct (subscript data "kind") as [kind|e] eqn:Hk; cbn; [|discriminate].
  destruct (subscript data "user_rules") as [rules|e] eqn:Hr; cbn;
    [|discriminate].
  intros [= <-]. split; [eauto|]. split; [|split].
  - rewrite !dom_insert_L, dom_singleton_L. apply set_eq. intros x.
    rewrite !elem_of_union, !elem_of_singleton. tauto.
  - apply lookup_insert_eq.
  - intros d [= ->]. cbn in Hk, Hr.
    destruct (d !! "kind") as [k|]; [|discriminate Hk].
    destruct (d !! "user_rules") as [r|]; [|discriminate Hr].
    injection Hk as <-. injection Hr as <-. split.
    + rewrite lookup_insert_ne by discriminate. apply lookup_insert_eq.
    + rewrite !lookup_insert_ne by discriminate. apply lookup_insert_eq.
Qed.

(** X8: for a profile that is a record, [show_profile_info] returns exactly
    when the record has both a [kind] and a [user_rules] entry; otherwise it
    raises the [KeyError] of the first one missing, [kind] before
    [user_rules]. *)
Theorem profile_info_needs_kind_and_rules (db_db : gmap string pyval)
    (profile_name : string) (d : gmap string pyval) :
  db_db !! profile_name = Some (PyDict d) →
  ((∃ info, show_profile_info db_db profile_name = PyX.Return info)
   ↔ is_Some (d !! "kind") ∧ is_Some (d !! "user_rules"))
  ∧ (d !! "kind" = None →
     show_profile_info db_db profile_name
     = PyX.Raises (PyX.Base (KeyError "kind")))
  ∧ (is_Some (d !! "kind") → d !! "user_rules" = None →
     show_profile_info db_db profile_name
     = PyX.Raises (PyX.Base (KeyError "user_rules"))).
Proof.
  intros Hd. unfold show_profile_info, contains. rewrite Hd. cbn.
  destruct (d !! "kind") as [k|], (d !! "user_rules") as [r|]; cbn.
  - split; [split; eauto|]. split; [discriminate|]. intros _ [=].
  - split; [split; [intros [? [=]] | intros [_ [? [=]]]]|].
    split; [discriminate | done].
  - split; [split; [intros [? [=]] | intros [[? [=]] _]]|].
    split; [done | intros [? [=]]].
  - split; [split; [intros [? [=]] | intros [[? [=]] _]]|].
    split; [done | intros [? [=]]].
Qed.

End ProfileInfo.

(** The complete driving profile of the example database. *)
Lemma profile_info_content_witness :
  "BEV_commuter" ∈ AnalyseProfiles.list_profiles viewer_db
  ∧ (AnalyseProfiles.show_profile_info viewer_db "BEV_commuter"
     = PyX.Return
         {[ "name" := AnalyseProfiles.Val (PyStr "BEV_commuter");
            "kind" := AnalyseProfiles.Val (PyStr "driving");
            "rules" := AnalyseProfiles.Val (PyDict ∅) ]}).
Proof.
  assert (AnalyseProfiles.show_profile_info viewer_db "BEV_commuter"
          = PyX.Return
              {[ "name" := AnalyseProfiles.Val (PyStr "BEV_commuter");
                 "kind" := AnalyseProfiles.Val (PyStr "driving");
                 "rules" := AnalyseProfiles.Val (PyDict ∅) ]}) as Hrun
    by reflexivity.
  destruct (profile_info_content viewer_db "BEV_commuter" _ Hrun)
    as (Hlisted & _).
  split; [exact Hlisted | exact Hrun].
Defined.

(** The consumption profile of the example database has no rules. *)
Lemma profile_info_needs_kind_and_rules_witness :
  AnalyseProfiles.show_profile_info viewer_db "BEV_commuter_ID3"
  = PyX.Raises (PyX.Base (KeyError "user_rules")).
Proof.
  destruct (profile_info_needs_kind_and_rules viewer_db "BEV_commuter_ID3"
              {[ "kind" := PyStr "consumption" ]} eq_refl)
    as (_ & _ & Hrules).
  apply Hrules; [by eexists | reflexivity].
Defined.

(** ** The folder for the results *)

Section SavePathsProps.
Import SavePaths.
Variable os_getcwd : string.
Variable os_path_abspath : string → string.
Variable os_path_join : string → string → string.
Variable ancestors : string → gset string.

Local Abbreviation save_path_of s :=
  (os_path_join (results_path os_getcwd os_path_abspath os_path_join) s).
Local Abbreviation call sub w :=
  (get_save_path os_getcwd os_path_abspath os_path_join ancestors sub w).



End SavePathsProps.



(** ** The vehicle table *)

Section BevRows.
Import BevDatabase.
Variable int_of : string → option Z.

Lemma for_each_appends {A R} (body : A → list R → PyX.outcome (list R)) g :
  appends body g →
  appends (λ l rows, PyX.for_each body l rows)
    (λ l, (λ rs, concat rs) <$> mapM g l).
Proof.
  intros Hbody l. induction l as [|x l IH]; intros rows.
  - cbn. by rewrite app_nil_r.
  - cbn [PyX.for_each mapM]. specialize (Hbody x rows).
    destruct (g x) as [r|]; cbn.
    + rewrite Hbody. cbn. specialize (IH (rows ++ r)).
      destruct (mapM g l) as [rs|]; cbn in *.
      * by rewrite IH, app_assoc.
      * exact IH.
    + destruct Hbody as [msg ->]. cbn. eauto.
Qed.

Lemma elem_of_concat_mapM {A R} (g : A → option (list R)) l rs (x : R) :
  mapM g l = Some rs →
  x ∈ concat rs ↔ ∃ a r, a ∈ l ∧ g a = Some r ∧ x ∈ r.
Proof.
  revert rs. induction l as [|a l IH]; intros rs Hrs.
  - injection Hrs as <-. cbn. split.
    + intros H. by apply elem_of_nil in H.
    + intros (a & r & Ha & _). by apply elem_of_nil in Ha.
  - cbn in Hrs. destruct (g a) as [r|] eqn:Hga; [|discriminate].
    destruct (mapM g l) as [rs'|] eqn:Hl; [|discriminate].
    cbn in Hrs. injection Hrs as <-. cbn. rewrite elem_of_app, (IH rs' eq_refl).
    split.
    + intros [Hx | (a' & r' & Ha' & Hg' & Hx)].
      * exists a, r. split; [left | done].
      * exists a', r'. split; [by right | done].
    + intros (a' & r' & Ha' & Hg' & Hx).
      apply elem_of_cons in Ha' as [-> | Ha'].
      * left. rewrite Hga in Hg'. by injection Hg' as <-.
      * right. eauto.
Qed.

Lemma year_step_appends manufacturer model_name :
  appends (year_step int_of manufacturer model_name)
    (year_rows int_of manufacturer model_name).
Proof.
  intros year rows. unfold year_rows, year_step.
  destruct (int_of year); cbn; eauto.
Qed.

Lemma model_step_appends manufacturer :
  appends (model_step int_of manufacturer) (model_rows int_of manufacturer).
Proof.
  intros [model_name years] rows. unfold model_rows, model_step. cbn [fst snd].
  apply (for_each_appends _ _ (year_step_appends manufacturer model_name)).
Qed.

Lemma manufacturer_step_appends :
  appends (manufacturer_step int_of) (manufacturer_rows int_of).
Proof.
  intros [manufacturer model_dict] rows.
  unfold manufacturer_rows, manufacturer_step. cbn [fst snd].
  destruct (String.eqb manufacturer "fallback_parameters").
  - by rewrite app_nil_r.
  - apply (for_each_appends _ _ (model_step_appends manufacturer)).
Qed.

Lemma load_bev_database_rows data :
  match mapM (manufacturer_rows int_of) (map_to_list data) with
  | Some rs => load_bev_database int_of data = PyX.Return (concat rs)
  | None => ∃ msg, load_bev_database int_of data
                   = PyX.Raises (PyX.ValueError msg)
  end.
Proof.
  pose proof (for_each_appends _ _ manufacturer_step_appends
                (map_to_list data) []) as H.
  unfold load_bev_database. cbv beta in H.
  destruct (mapM (manufacturer_rows int_of) (map_to_list data));
    cbn in H; exact H.
Qed.

Lemma manufacturer_rows_elem manufacturer model_dict r (x : row) :
  manufacturer_rows int_of (manufacturer, model_dict) = Some r →
  x ∈ r ↔
    manufacturer ≠ "fallback_parameters"
    ∧ ∃ model_name years year y,
        model_dict !! model_name = Some years ∧ year ∈ years
        ∧ int_of year = Some y ∧ x = (manufacturer, model_name, y).
Proof.
  unfold manufacturer_rows. cbn [fst snd].
  destruct (String.eqb manufacturer "fallback_parameters") eqn:Hfb.
  - intros [= <-]. apply String.eqb_eq in Hfb. split.
    + intros H. by apply elem_of_nil in H.
    + by intros [Hne _].
  - apply String.eqb_neq in Hfb.
    destruct (mapM (model_rows int_of manufacturer) (map_to_list model_dict))
      as [rs|] eqn:Hrs; [|discriminate].
    cbn. intros [= <-]. rewrite (elem_of_concat_mapM _ _ _ _ Hrs). split.
    + intros ([model_name years] & r & Hin & Hr & Hx).
      apply elem_of_map_to_list in Hin. split; [done|].
      unfold model_rows in Hr. cbn [fst snd] in Hr.
      destruct (mapM (year_rows int_of manufacturer model_name) years)
        as [ys|] eqn:Hys; [|discriminate].
      cbn in Hr. injection Hr as <-.
      apply (elem_of_concat_mapM _ _ _ _ Hys) in Hx
        as (year & r' & Hyear & Hr' & Hx).
      unfold year_rows in Hr'. destruct (int_of year) as [y|] eqn:Hy;
        [|discriminate].
      cbn in Hr'. injection Hr' as <-. apply list_elem_of_singleton in Hx.
      by exists model_name, years, year, y.
    + intros (_ & model_name & years & year & y & Hm & Hyear & Hy & ->).
      assert ((model_name, years) ∈ map_to_list model_dict) as Hin
        by (by apply elem_of_map_to_list).
      assert (is_Some (model_rows int_of manufacturer (model_name, years)))
        as [r Hr].
      { pose proof (mapM_is_Some_1 _ _ (mk_is_Some _ _ Hrs)) as Hall.
        rewrite Forall_forall in Hall. by apply Hall. }
      exists (model_name, years), r. split; [done|]. split; [done|].
      unfold model_rows in Hr. cbn [fst snd] in Hr.
      destruct (mapM (year_rows int_of manufacturer model_name) years)
        as [ys|] eqn:Hys; [|discriminate].
      cbn in Hr. injection Hr as <-.
      apply (elem_of_concat_mapM _ _ _ _ Hys).
      exists year, [(manufacturer, model_name, y)].
      split; [done|]. split; [|by left].
      unfold year_rows. by rewrite Hy.
Qed.

Lemma manufacturer_rows_is_Some manufacturer model_dict :
  is_Some (manufacturer_rows int_of (manufacturer, model_dict))
  ↔ (manufacturer ≠ "fallback_parameters" →
     ∀ model_name years year,
       model_dict !! model_name = Some years → year ∈ years →
       is_Some (int_of year)).
Proof.
  unfold manufacturer_rows. cbn [fst snd].
  destruct (String.eqb manufacturer "fallback_parameters") eqn:Hfb.
  - apply String.eqb_eq in Hfb. split; [by intros _ Hne | eauto].
  - apply String.eqb_neq in Hfb. rewrite fmap_is_Some, mapM_is_Some.
    rewrite Forall_forall. split.
    + intros Hall _ model_name years year Hm Hyear.
      specialize (Hall (model_name, years)
                    (proj2 (elem_of_map_to_list _ _ _) Hm)).
      unfold compose, model_rows in Hall. cbn [fst snd] in Hall.
      rewrite fmap_is_Some, mapM_is_Some, Forall_forall in Hall.
      specialize (Hall year Hyear). unfold compose, year_rows in Hall.
      by rewrite fmap_is_Some in Hall.
    + intros Hall [model_name years] Hin.
      apply elem_of_map_to_list in Hin.
      unfold compose, model_rows. cbn [fst snd].
      rewrite fmap_is_Some, mapM_is_Some, Forall_forall.
      intros year Hyear. unfold compose, year_rows. rewrite fmap_is_Some.
      by apply (Hall Hfb model_name years).
Qed.

(** X11: when [load_bev_database] returns, its rows are exactly the
    (manufacturer, model, year) triples of the data, year keys read as
    numbers, except that nothing under ["fallback_parameters"] becomes a
    row. *)
Theorem bev_rows_exact (data : gmap string (gmap string (list string)))
    (rows : list row) :
  load_bev_database int_of data = PyX.Return rows →
  ∀ manufacturer model_name y,
    (manufacturer, model_name, y) ∈ rows
    ↔ manufacturer ≠ "fallback_parameters"
      ∧ ∃ model_dict years year,
          data !! manufacturer = Some model_dict
          ∧ model_dict !! model_name = Some years
          ∧ year ∈ years ∧ int_of year = Some y.
Proof.
  intros Hload manufacturer model_name y.
  pose proof (load_bev_database_rows data) as Hrows.
  destruct (mapM (manufacturer_rows int_of) (map_to_list data)) as [rs|]
    eqn:Hrs; [|destruct Hrows as [msg Hmsg]; congruence].
  rewrite Hrows in Hload. injection Hload as <-.
  rewrite (elem_of_concat_mapM _ _ _ _ Hrs). split.
  - intros ([m md] & r & Hin & Hr & Hx).
    apply elem_of_map_to_list in Hin.
    apply (manufacturer_rows_elem _ _ _ _ Hr) in Hx
      as (Hne & model' & years & year & y' & Hm & Hyear & Hy & [= -> -> ->]).
    split; [done|]. by exists md, years, year.
  - intros (Hne & md & years & year & Hd & Hm & Hyear & Hy).
    assert ((manufacturer, md) ∈ map_to_list data) as Hin
      by (by apply elem_of_map_to_list).
    assert (is_Some (manufacturer_rows int_of (manufacturer, md))) as [r Hr].
    { pose proof (mapM_is_Some_1 _ _ (mk_is_Some _ _ Hrs)) as Hall.
      rewrite Forall_forall in Hall. by apply Hall. }
    exists (manufacturer, md), r. split; [done|]. split; [done|].
    apply (manufacturer_rows_elem _ _ _ _ Hr). split; [done|].
    by exists model_name, years, year, y.
Qed.

(** X12: [load_bev_database] returns exactly when every year key outside
    ["fallback_parameters"] reads as a number; otherwise it raises a
    [ValueError].  What is stored under ["fallback_parameters"] is never
    read. *)
Theorem bev_load_succeeds_iff
    (data : gmap string (gmap string (list string))) :
  ((∃ rows, load_bev_database int_of data = PyX.Return rows)
   ↔ ∀ manufacturer model_dict model_name years year,
       data !! manufacturer = Some model_dict →
       manufacturer ≠ "fallback_parameters" →
       model_dict !! model_name = Some years → year ∈ years →
       is_Some (int_of year))
  ∧ ((∃ rows, load_bev_database int_of data = PyX.Return rows)
     ∨ ∃ msg, load_bev_database int_of data
              = PyX.Raises (PyX.ValueError msg)).
Proof.
  pose proof (load_bev_database_rows data) as Hrows.
  pose proof (mapM_is_Some (manufacturer_rows int_of) (map_to_list data))
    as Hsome.
  rewrite Forall_forall in Hsome.
  destruct (mapM (manufacturer_rows int_of) (map_to_list data)) as [rs|].
  - split; [|eauto]. split; [|eauto].
    intros _ manufacturer model_dict model_name years year Hd Hne Hm Hyear.
    pose proof (proj1 Hsome (mk_is_Some _ _ eq_refl) (manufacturer, model_dict)
                  (proj2 (elem_of_map_to_list _ _ _) Hd)) as Hrow.
    unfold compose in Hrow.
    by apply (proj1 (manufacturer_rows_is_Some _ _) Hrow Hne model_name years).
  - destruct Hrows as [msg Hmsg]. split; [|eauto]. split.
    + intros [rows Hret]. congruence.
    + intros Hall. exfalso.
      assert (is_Some (@None (list (list row)))) as [? [=]].
      apply Hsome. intros [manufacturer model_dict] Hin.
      apply elem_of_map_to_list in Hin. unfold compose.
      apply manufacturer_rows_is_Some.
      intros Hne model_name years year Hm Hyear.
      by apply (Hall manufacturer model_dict model_name years).
Qed.

End BevRows.

(** The example data loads, and the fallback entry gives no row. *)
Lemma bev_rows_exact_witness :
  ("Volkswagen", "ID.3", 2020%Z)
  ∈ [("Volkswagen", "ID.3", 2020%Z); ("Volkswagen", "ID.3", 2021%Z);
     ("Tesla", "Model 3", 2019%Z)]
  ↔ "Volkswagen" ≠ "fallback_parameters"
    ∧ ∃ model_dict years year,
        demo_bev_data !! "Volkswagen" = Some model_dict
        ∧ model_dict !! "ID.3" = Some years
        ∧ year ∈ years ∧ demo_int_of year = Some 2020%Z.
Proof.
  apply (bev_rows_exact demo_int_of demo_bev_data). vm_compute. reflexivity.
Defined.

(** ** Rules: what is never touched *)

Section RulesKeep.
Import CreateRules.

Lemma keeps_weaken {A} n (m : M store A) (P Q : A → Prop) :
  (∀ a, P a → Q a) → keeps n m P → keeps n m Q.
Proof.
  intros HPQ Hm h Hn. destruct (Hm h Hn) as (Ht & Hl & Hp).
  split; [done|]. split; [done|]. intros a Ha. by apply HPQ, Hp.
Qed.

Lemma keeps_bind {A B} n (m : M store A) (k : A → M store B) P Q :
  keeps n m P → (∀ a, P a → keeps n (k a) Q) → keeps n (m ≫= k) Q.
Proof.
  intros Hm Hk h Hn. destruct (Hm h Hn) as (Ht & Hl & Hp).
  rewrite run_bind. destruct (m h) as [[a|e] h'] eqn:Hmh; cbn in *.
  - destruct (Hk a (Hp a eq_refl) h' Hl) as (Ht' & Hl' & Hq).
    split; [by rewrite Ht'|]. by split.
  - split; [done|]. split; [done|]. intros b [=].
Qed.

Lemma keeps_ret {A} n (a : A) (P : A → Prop) :
  P a → keeps n (mret a : M store A) P.
Proof. intros Ha h Hn. cbn. split; [done|]. split; [done|]. by intros ? [= <-]. Qed.

Lemma new_dict_keeps n d : keeps n (new_dict d) (λ l, (n ≤ l)%nat).
Proof.
  intros h Hn. unfold new_dict. cbn. split; [by rewrite take_app_le|].
  split; [rewrite length_app; lia|]. by intros ? [= <-].
Qed.

Lemma get_method_keeps n v : keeps n (get_method v) (λ _, True).
Proof.
  intros h Hn. unfold get_method. by destruct (deref_dict h v).
Qed.

Lemma get_or_empty_keeps n v key : keeps n (get_or_empty v key) (λ _, True).
Proof.
  unfold get_or_empty. eapply keeps_bind; [apply get_method_keeps|].
  intros d _. eapply keeps_bind; [apply new_dict_keeps|].
  intros l _. by apply keeps_ret.
Qed.

Lemma dict_update_keeps n target src :
  (n ≤ target)%nat → keeps n (dict_update target src) (λ _, True).
Proof.
  intros Ht h Hn. unfold dict_update.
  destruct (deref_dict h src) as [d|]; [|done].
  destruct (h !! target) as [[t|]|]; [|done..]. cbn.
  split; [by apply take_insert_ge|]. by rewrite length_insert.
Qed.

Lemma merged_day_keeps n base gs day :
  keeps n (merged_day base gs day) (λ _, True).
Proof.
  unfold merged_day. eapply keeps_bind; [apply new_dict_keeps|].
  intros merged Hm. eapply keeps_bind; [by apply dict_update_keeps|].
  intros _ _. eapply keeps_bind; [apply get_or_empty_keeps|].
  intros specific _. eapply keeps_bind; [by apply dict_update_keeps|].
  intros _ _. by apply keeps_ret.
Qed.

Lemma get_rules_for_group_keeps n group specifics_rules base_day_rules :
  keeps n (get_rules_for_group group specifics_rules base_day_rules)
    (λ _, True).
Proof.
  unfold get_rules_for_group.
  eapply keeps_bind; [apply get_or_empty_keeps|]. intros gs _.
  eapply keeps_bind; [apply merged_day_keeps|]. intros weekday _.
  eapply keeps_bind; [apply merged_day_keeps|]. intros weekend _.
  eapply keeps_bind; [apply new_dict_keeps|]. intros rules _.
  by apply keeps_ret.
Qed.

Lemma keeps_prefix {A} (m : M store A) P h :
  keeps (length h) m P → h `prefix_of` (m h).2.
Proof.
  intros Hm. destruct (Hm h (le_n _)) as (Ht & _ & _).
  rewrite (take_ge h) in Ht by lia. exists (drop (length h) (m h).2).
  rewrite <- (take_drop (length h) (m h).2) at 1. by rewrite Ht.
Qed.

(** X13: whatever its arguments are, and whether it returns or raises,
    [get_rules_for_group] changes no object that existed before the call:
    the old store is a prefix of the new one.  In particular it never
    mutates [specifics_rules], [base_day_rules] or any dictionary nested in
    them. *)
Theorem get_rules_for_group_never_mutates (group : string)
    (specifics_rules base_day_rules : value) (h : store) :
  h `prefix_of`
    (get_rules_for_group group specifics_rules base_day_rules h).2.
Proof.
  apply (keeps_prefix _ (λ _, True)), get_rules_for_group_keeps.
Qed.

End RulesKeep.

(** ** The rules file *)

Section RulesFile.
Import CreateRules CreateRulesFile.
Variable os_path_join : string → string → string.
Variable io_raises : io_call → option exn.

Local Abbreviation rules_file path := (os_path_join path "rules.yml").
Local Abbreviation saved_line path :=
  ("Rules file saved at: " +:+ os_path_join path "rules.yml" +:+ " âœ…").
Local Abbreviation written_in_full path rules :=
  [Opened (rules_file path); Written (rules_file path) yaml_header;
   Dumped (rules_file path) rules].

Lemma dict_setitem_keeps n target key v :
  (n ≤ target)%nat → keeps n (dict_setitem target key v) (λ _, True).
Proof.
  intros Ht h Hn. unfold dict_setitem.
  destruct (h !! target) as [[d|]|]; [|done..]. cbn.
  split; [by apply take_insert_ge|]. by rewrite length_insert.
Qed.

Lemma for_each_keeps {A B} n (body : A → B → M store B) l :
  (∀ x acc, keeps n (body x acc) (λ _, True)) →
  ∀ acc, keeps n (for_each body l acc) (λ _, True).
Proof.
  intros Hbody. induction l as [|x l IH]; intros acc.
  - by apply (keeps_ret n acc (λ _, True)).
  - cbn [for_each]. apply (keeps_bind n _ _ (λ _, True)); [apply Hbody|].
    intros acc' _. apply IH.
Qed.

Lemma rules_step_keeps n rules specifics_rules base_day_rules group acc :
  (n ≤ rules)%nat →
  keeps n (rules_step rules specifics_rules base_day_rules group acc)
    (λ _, True).
Proof.
  intros Hr. unfold rules_step.
  eapply keeps_bind; [apply get_rules_for_group_keeps|].
  intros r _. by apply dict_setitem_keeps.
Qed.

(** The call on a world where nothing has happened yet, stage by stage. *)
Lemma create_emobpy_rules_yaml_run path groups specifics_rules
    base_day_rules h :
  create_emobpy_rules_yaml os_path_join io_raises path groups
    specifics_rules base_day_rules (RulesWorld h [] [] [])
  = match for_each (rules_step (length h) specifics_rules base_day_rules)
            groups tt (h ++ [ODict ∅]) with
    | (Raise e, h') => (Raise e, RulesWorld h' [] [] [])
    | (Ok _, h') =>
        match io_raises (Makedirs path) with
        | Some x => (Raise x, RulesWorld h' [] [] [])
        | None =>
        match io_raises (Open (rules_file path)) with
        | Some x => (Raise x, RulesWorld h' [path] [] [])
        | None =>
        match io_raises (FileWrite (rules_file path) yaml_header) with
        | Some x =>
            (Raise x, RulesWorld h' [path] [Opened (rules_file path)] [])
        | None =>
        match io_raises (JsonDump (rules_file path) (Ref (length h)) h') with
        | Some x =>
            (Raise x,
             RulesWorld h' [path]
               [Opened (rules_file path);
                Written (rules_file path) yaml_header;
                DumpedPartly (rules_file path) (Ref (length h))] [])
        | None =>
            (Ok tt,
             RulesWorld h' [path] (written_in_full path (Ref (length h)))
               [saved_line path])
        end end end end
    end.
Proof.
  unfold create_emobpy_rules_yaml, on_heap, new_dict, os_makedirs, open_w,
    file_write, json_dump, file_event_log, rw_print.
  run_monad. cbn [heap folders_made file_events rw_printed].
  destruct (for_each _ groups tt (h ++ [ODict ∅])) as [[[]|e] h'];
    [|done].
  destruct (io_raises (Makedirs path)); [done|].
  cbn [heap folders_made file_events rw_printed].
  destruct (io_raises (Open _)); [done|].
  cbn [heap folders_made file_events rw_printed].
  destruct (io_raises (FileWrite _ _)); [done|].
  cbn [heap folders_made file_events rw_printed].
  by destruct (io_raises (JsonDump _ _ _)).
Qed.

(** When the loop over [groups] ends normally, the keys of the rules
    dictionary are its old keys and the names in [groups]. *)
Lemma rules_loop_keys rules specifics_rules base_day_rules groups :
  ∀ h R h',
    h !! rules = Some (ODict R) →
    for_each (rules_step rules specifics_rules base_day_rules) groups tt h
    = (Ok tt, h') →
    ∃ R', h' !! rules = Some (ODict R')
          ∧ dom R' = dom R ∪ list_to_set groups.
Proof.
  induction groups as [|g gs IH]; intros h R h' Hrules Hrun.
  - cbn in Hrun. injection Hrun as <-. exists R. split; [done|].
    cbn. by rewrite (right_id_L ∅ (∪)).
  - cbn [for_each] in Hrun. unfold Py.bind in Hrun.
    destruct (rules_step rules specifics_rules base_day_rules g tt h)
      as [[[]|e] h1] eqn:Hstep; [|discriminate].
    unfold rules_step in Hstep. rewrite run_bind in Hstep.
    pose proof (lookup_lt_Some _ _ _ Hrules) as Hlt.
    destruct (get_rules_for_group_keeps (Datatypes.S rules) g
                specifics_rules base_day_rules h Hlt) as (Htake & Hlen & _).
    destruct (get_rules_for_group g specifics_rules base_day_rules h)
      as [[r|e] h0]; [|discriminate]. cbn [snd] in Htake, Hlen.
    assert (h0 !! rules = Some (ODict R)) as Hh0.
    { rewrite <- (lookup_take_lt h0 (Datatypes.S rules)) by lia.
      rewrite Htake. by rewrite lookup_take_lt by lia. }
    unfold dict_setitem in Hstep. rewrite Hh0 in Hstep.
    injection Hstep as <-.
    destruct (IH _ (<[g := r]> R) h'
                (list_lookup_insert_eq _ _ _ Hlen) Hrun)
      as (R' & HR' & Hdom).
    exists R'. split; [done|].
    rewrite Hdom, dom_insert_L. cbn. apply set_eq. intros x.
    rewrite !elem_of_union. tauto.
Qed.


Lemma group_well_formed_app h h' S group :
  group_well_formed h S group → group_well_formed (h ++ h') S group.
Proof.
  intros Hwf g Hg. destruct (Hwf g Hg) as (gd & Hgd & Hdays).
  exists gd. split; [by apply deref_dict_app|].
  intros day v Hday Hv. destruct (Hdays day v Hday Hv) as [D HD].
  exists D. by apply deref_dict_app.
Qed.

Lemma group_day_rules_app h h' S group day :
  day ∈ ["weekday"; "weekend"] →
  group_well_formed h S group →
  group_day_rules (h ++ h') S group day = group_day_rules h S group day.
Proof.
  intros Hday Hwf. unfold group_day_rules.
  destruct (S !! group) as [g|] eqn:Hg; [|done].
  destruct (Hwf g Hg) as (gd & Hgd & Hdays).
  rewrite Hgd, (deref_dict_app _ h' _ _ Hgd).
  destruct (gd !! day) as [v|] eqn:Hv; [|done].
  destruct (Hdays day v Hday Hv) as [D HD].
  by rewrite HD, (deref_dict_app _ h' _ _ HD).
Qed.

Lemma dict_setitem_run (h0 : store) R t key v :
  dict_setitem (length h0) key v (h0 ++ ODict R :: t)
  = (Ok tt, h0 ++ ODict (<[key := v]> R) :: t).
Proof.
  unfold dict_setitem. by rewrite list_lookup_middle, insert_fresh.
Qed.

Lemma deref_above (h0 : store) o o' t t' r d :
  (length h0 < r)%nat → t `prefix_of` t' →
  deref_dict (h0 ++ o :: t) (Ref r) = Some d →
  deref_dict (h0 ++ o' :: t') (Ref r) = Some d.
Proof.
  intros Hr [k ->]. cbn.
  rewrite !lookup_app_r by lia.
  replace (r - length h0)%nat with (Datatypes.S (r - length h0 - 1)) by lia.
  cbn. destruct (t !! (r - length h0 - 1)%nat) as [x|] eqn:Hx; [|done].
  by rewrite (lookup_app_l_Some _ _ _ _ Hx).
Qed.

Lemma merged_rules_of_stable h0 S B R R' t t' group v :
  t `prefix_of` t' →
  merged_rules_of h0 S B (length h0) (h0 ++ ODict R :: t) group v →
  merged_rules_of h0 S B (length h0) (h0 ++ ODict R' :: t') group v.
Proof.
  intros Hpre (r & wd & we & -> & (Hr & Hwd & Hwe) & H1 & H2 & H3).
  exists r, wd, we. split; [done|]. split; [done|].
  split; [|split]; by eapply deref_above.
Qed.

Lemma rules_loop h0 S B specifics_rules base_day_rules groups :
  deref_dict h0 specifics_rules = Some S →
  deref_dict h0 base_day_rules = Some B →
  (∀ g, g ∈ groups → group_well_formed h0 S g) →
  ∀ R t,
  ∃ R' t',
    for_each (rules_step (length h0) specifics_rules base_day_rules)
      groups tt (h0 ++ ODict R :: t)
    = (Ok tt, h0 ++ ODict R' :: t')
    ∧ t `prefix_of` t'
    ∧ dom R' = dom R ∪ list_to_set groups
    ∧ (∀ g, g ∈ groups →
         ∃ v, R' !! g = Some v
              ∧ merged_rules_of h0 S B (length h0) (h0 ++ ODict R' :: t') g v)
    ∧ (∀ g, g ∉ groups → R' !! g = R !! g).
Proof.
  intros HS HB. induction groups as [|g gs IH]; intros Hwf R t.
  - exists R, t. split; [done|]. split; [done|].
    split; [cbn; by rewrite (right_id_L ∅ (∪))|].
    split; [|done]. intros g Hg. by apply elem_of_nil in Hg.
  - assert (group_well_formed h0 S g) as Hg by (apply Hwf; left).
    pose proof (get_rules_for_group_run g specifics_rules base_day_rules
                  (h0 ++ ODict R :: t) S B (deref_dict_app _ _ _ _ HS)
                  (deref_dict_app _ _ _ _ HB)
                  (group_well_formed_app _ _ _ _ Hg)) as Hrun.
    rewrite !(group_day_rules_app h0) in Hrun
      by (done || apply list_elem_of_In; simpl; auto).
    remember (length (h0 ++ ODict R :: t)) as n eqn:Hn.
    set (six := [ODict ∅;
                 ODict (group_day_rules h0 S g "weekday" ∪ B); ODict ∅;
                 ODict (group_day_rules h0 S g "weekend" ∪ B); ODict ∅;
                 ODict {[ "weekday" := Ref (n + 1);
                          "weekend" := Ref (n + 3) ]}]) in Hrun.
    assert (rules_step (length h0) specifics_rules base_day_rules g tt
              (h0 ++ ODict R :: t)
            = (Ok tt, h0 ++ ODict (<[g := Ref (n + 5)]> R) :: (t ++ six)))
      as Hstep.
    { unfold rules_step. rewrite (run_bind_ok _ _ _ _ _ Hrun).
      rewrite <- app_assoc. cbn [app]. apply dict_setitem_run. }
    destruct (IH (λ g' Hg', Hwf g' (list_elem_of_further _ _ _ Hg'))
                (<[g := Ref (n + 5)]> R) (t ++ six))
      as (R' & t' & Hloop & Hpre & Hdom & Hin & Hout).
    exists R', t'. cbn [for_each]. rewrite (bind_ok _ _ _ _ _ Hstep).
    split; [exact Hloop|].
    assert (t `prefix_of` t') as Hpre'.
    { etrans; [|exact Hpre]. by apply prefix_app_r. }
    split; [exact Hpre'|]. split; [|split].
    + rewrite Hdom, dom_insert_L. cbn. apply set_eq. intros x.
      rewrite !elem_of_union. tauto.
    + intros g' Hg'. destruct (decide (g' ∈ gs)) as [Hgs|Hgs];
        [by apply Hin|].
      apply elem_of_cons in Hg' as [-> | Hg']; [|done].
      exists (Ref (n + 5)). split.
      * by rewrite (Hout g Hgs), lookup_insert_eq.
      * apply (merged_rules_of_stable _ _ _
                 (<[g := Ref (n + 5)]> R) _ (t ++ six)); [done|].
        assert (n = length h0 + Datatypes.S (length t))%nat as Hlen
          by (rewrite Hn, length_app; reflexivity).
        exists (n + 5)%nat, (n + 1)%nat, (n + 3)%nat.
        split; [done|]. split; [lia|].
        assert (∀ i, (h0 ++ ODict (<[g := Ref (n + 5)]> R) :: (t ++ six))
                       !! (n + i)%nat = six !! i) as Hsix.
        { intros i.
          change (h0 ++ ODict (<[g := Ref (n + 5)]> R) :: t ++ six)
            with (h0 ++ (ODict (<[g := Ref (n + 5)]> R) :: t) ++ six).
          rewrite app_assoc, lookup_app_r
            by (rewrite length_app; cbn; lia).
          f_equal. rewrite length_app. cbn. lia. }
        cbn [deref_dict]. rewrite !Hsix. by cbn.
    + intros g' Hg'. apply not_elem_of_cons in Hg' as [Hne Hgs].
      by rewrite (Hout g' Hgs), lookup_insert_ne.
Qed.


End RulesFile.


(** ** The run as a whole *)

Section Case1Whole.
Import Case1.
Variable input_table : DataFrame.
Variable Model_raises : EnergySystem → option exn.
Variable model_solve : OpModel → string → bool → result SolverResults.
Variable dump_raises : string → string → EnergySystem → option exn.
Variables dump_path lp_file_path dump_filename : string.

Local Abbreviation run2 :=
  (run input_table Model_raises model_solve dump_raises dump_path
     lp_file_path dump_filename).

(** X16: a run never writes an LP file ([debug] is [False]) and dumps at
    most once; the dump is there exactly when the run ends normally, and a
    run ends normally only if the table has the five columns, [Model(es)]
    did not raise on the energy system built from them, the solver
    answered ([ok], [optimal]) on the compiled model, and [es.dump] did not
    raise on the energy system with the extracted results, which is the
    one dumped. *)
Theorem run_dumps_iff_normal_end :
  let out := run2 in
  lp_files out.2 = []
  ∧ (length (dumped out.2) ≤ 1)%nat
  ∧ (out.1 = Ok tt ↔ dumped out.2 ≠ [])
  ∧ (out.1 = Ok tt →
       ∃ at_home pv load consumption charging r,
         input_table !! "BEV_at_home" = Some at_home
         ∧ input_table !! "PV_kW" = Some pv
         ∧ input_table !! "Load_kW" = Some load
         ∧ input_table !! "consumption" = Some consumption
         ∧ input_table !! "charging_power_kW" = Some charging
         ∧ Model_raises (es_built at_home pv load consumption) = None
         ∧ model_solve (case1_model at_home pv load consumption) "cbc" false
           = Ok r
         ∧ solved r
         ∧ dump_raises dump_path dump_filename
             (es_solved at_home pv load consumption r) = None
         ∧ dumped out.2
           = [(dump_path, dump_filename,
               es_solved at_home pv load consumption r)]).
Proof.
  cbv zeta.
  assert ((∃ c, c ∈ required_columns ∧ input_table !! c = None) →
          lp_files run2.2 = []
          ∧ (length (dumped run2.2) ≤ 1)%nat
          ∧ (run2.1 = Ok tt ↔ dumped run2.2 ≠ [])
          ∧ run2.1 ≠ Ok tt) as Hmissing.
  { intros Hm.
    destruct (run_missing_column input_table Model_raises model_solve
                dump_raises dump_path lp_file_path dump_filename Hm)
      as (i & c & _ & _ & _ & -> & _ & _ & _ & _ & -> & ->).
    split; [done|]. split; [cbn; lia|].
    split; [split; [discriminate | done] | discriminate]. }
  assert (∀ c, c ∈ required_columns → input_table !! c = None →
            lp_files run2.2 = []
            ∧ (length (dumped run2.2) ≤ 1)%nat
            ∧ (run2.1 = Ok tt ↔ dumped run2.2 ≠ [])
            ∧ run2.1 ≠ Ok tt) as Hmiss.
  { intros c Hc Hn. apply Hmissing. by exists c. }
  assert (∀ c, c ∈ required_columns → input_table !! c = None →
            lp_files run2.2 = []
            ∧ (length (dumped run2.2) ≤ 1)%nat
            ∧ (run2.1 = Ok tt ↔ dumped run2.2 ≠ [])
            ∧ (run2.1 = Ok tt →
               ∃ at_home pv load consumption charging r,
                 input_table !! "BEV_at_home" = Some at_home
                 ∧ input_table !! "PV_kW" = Some pv
                 ∧ input_table !! "Load_kW" = Some load
                 ∧ input_table !! "consumption" = Some consumption
                 ∧ input_table !! "charging_power_kW" = Some charging
                 ∧ Model_raises (es_built at_home pv load consumption) = None
                 ∧ model_solve (case1_model at_home pv load consumption)
                     "cbc" false = Ok r
                 ∧ solved r
                 ∧ dump_raises dump_path dump_filename
                     (es_solved at_home pv load consumption r) = None
                 ∧ dumped run2.2
                   = [(dump_path, dump_filename,
                       es_solved at_home pv load consumption r)])) as Hno.
  { intros c Hc Hn. destruct (Hmiss c Hc Hn) as (H1 & H2 & H3 & H4).
    split; [done|]. split; [done|]. split; [done|]. by intros Hok. }
  clear Hmissing Hmiss.
  assert (∀ c, In c required_columns → c ∈ required_columns) as Hin
    by (intros c; apply list_elem_of_In).
  destruct (input_table !! "BEV_at_home") as [at_home|] eqn:H1;
    [|apply (Hno "BEV_at_home"); [apply Hin; simpl; auto 10 | done]].
  destruct (input_table !! "PV_kW") as [pv|] eqn:H2;
    [|apply (Hno "PV_kW"); [apply Hin; simpl; auto 10 | done]].
  destruct (input_table !! "Load_kW") as [load|] eqn:H3;
    [|apply (Hno "Load_kW"); [apply Hin; simpl; auto 10 | done]].
  destruct (input_table !! "consumption") as [consumption|] eqn:H4;
    [|apply (Hno "consumption"); [apply Hin; simpl; auto 10 | done]].
  destruct (input_table !! "charging_power_kW") as [charging|] eqn:H5;
    [|apply (Hno "charging_power_kW"); [apply Hin; simpl; auto 10 | done]].
  clear Hno Hin.
  destruct (Model_raises (es_built at_home pv load consumption))
    as [x|] eqn:HM.
  { rewrite (run_compile_raises input_table Model_raises model_solve
               dump_raises dump_path lp_file_path dump_filename
               at_home pv load consumption charging H1 H2 H3 H4 H5 x HM).
    cbn [fst snd lp_files dumped].
    split; [done|]. split; [cbn; lia|].
    split; [split; [discriminate | done] | discriminate]. }
  destruct (model_solve (case1_model at_home pv load consumption) "cbc"
              false) as [r|x] eqn:HS.
  - rewrite (run_solver_answers input_table Model_raises model_solve
               dump_raises dump_path lp_file_path dump_filename
               at_home pv load consumption charging H1 H2 H3 H4 H5 r HM HS).
    pose proof (solved_test r) as Htest.
    destruct (bool_decide _ || bool_decide _);
      cbn [fst snd lp_files dumped].
    { split; [done|]. split; [cbn; lia|].
      split; [split; [discriminate | done] | discriminate]. }
    destruct (dump_raises dump_path dump_filename
                (es_solved at_home pv load consumption r)) as [x|] eqn:HD;
      cbn [fst snd lp_files dumped].
    { split; [done|]. split; [cbn; lia|].
      split; [split; [discriminate | done] | discriminate]. }
    split; [done|]. split; [cbn; lia|]. split; [done|].
    intros _. exists at_home, pv, load, consumption, charging, r.
    repeat (split; [done|]). split; [by apply Htest|]. by split.
  - rewrite (run_solver_raises input_table Model_raises model_solve
               dump_raises dump_path lp_file_path dump_filename
               at_home pv load consumption charging H1 H2 H3 H4 H5 x HM HS).
    destruct x; cbn [fst snd lp_files dumped];
      (split; [done|]; split; [cbn; lia|];
       split; [split; [discriminate | done] | discriminate]).
Qed.

End Case1Whole.

Section Case1Charging.
Import Case1.
Variables table table' : DataFrame.
Variable Model_raises : EnergySystem → option exn.
Variable model_solve : OpModel → string → bool → result SolverResults.
Variable dump_raises : string → string → EnergySystem → option exn.
Variables dump_path lp_file_path dump_filename : string.
Variables at_home pv load consumption charging charging' : Series.
Hypothesis H_at_home : table !! "BEV_at_home" = Some at_home.
Hypothesis H_pv : table !! "PV_kW" = Some pv.
Hypothesis H_load : table !! "Load_kW" = Some load.
Hypothesis H_consumption : table !! "consumption" = Some consumption.
Hypothesis H_charging : table !! "charging_power_kW" = Some charging.
Hypothesis H_at_home' : table' !! "BEV_at_home" = Some at_home.
Hypothesis H_pv' : table' !! "PV_kW" = Some pv.
Hypothesis H_load' : table' !! "Load_kW" = Some load.
Hypothesis H_consumption' : table' !! "consumption" = Some consumption.
Hypothesis H_charging' : table' !! "charging_power_kW" = Some charging'.

(** X17: the [charging_power_kW] series is read but not used: two tables
    that agree on the other four series give the same outcome, the same
    compiled model, the same energy system, the same dump and the same
    output, whatever their [charging_power_kW] series are. *)
Theorem charging_series_is_unused :
  let out := run table Model_raises model_solve dump_raises dump_path
               lp_file_path dump_filename in
  let out' := run table' Model_raises model_solve dump_raises dump_path
                lp_file_path dump_filename in
  out.1 = out'.1
  ∧ model (self out.2) = model (self out'.2)
  ∧ es (self out.2) = es (self out'.2)
  ∧ dumped out.2 = dumped out'.2
  ∧ printed out.2 = printed out'.2
  ∧ logged out.2 = logged out'.2.
Proof.
  cbv zeta.
  destruct (Model_raises (es_built at_home pv load consumption))
    as [x|] eqn:HM.
  { rewrite (run_compile_raises table Model_raises model_solve dump_raises
               dump_path lp_file_path dump_filename
               at_home pv load consumption charging
               H_at_home H_pv H_load H_consumption H_charging x HM).
    by rewrite (run_compile_raises table' Model_raises model_solve
                  dump_raises dump_path lp_file_path dump_filename
                  at_home pv load consumption charging'
                  H_at_home' H_pv' H_load' H_consumption' H_charging' x HM). }
  destruct (model_solve (case1_model at_home pv load consumption) "cbc"
              false) as [r|x] eqn:HS.
  - rewrite (run_solver_answers table Model_raises model_solve dump_raises
               dump_path lp_file_path dump_filename
               at_home pv load consumption charging
               H_at_home H_pv H_load H_consumption H_charging r HM HS).
    rewrite (run_solver_answers table' Model_raises model_solve dump_raises
               dump_path lp_file_path dump_filename
               at_home pv load consumption charging'
               H_at_home' H_pv' H_load' H_consumption' H_charging' r HM HS).
    destruct (bool_decide _ || bool_decide _); [done|].
    by destruct (dump_raises _ _ _).
  - rewrite (run_solver_raises table Model_raises model_solve dump_raises
               dump_path lp_file_path dump_filename
               at_home pv load consumption charging
               H_at_home H_pv H_load H_consumption H_charging x HM HS).
    rewrite (run_solver_raises table' Model_raises model_solve dump_raises
               dump_path lp_file_path dump_filename
               at_home pv load consumption charging'
               H_at_home' H_pv' H_load' H_consumption' H_charging' x HM HS).
    by destruct x.
Qed.

End Case1Charging.

(** The two-row table against the same table with another charging
    series. *)
Lemma charging_series_is_unused_witness :
  (Case1.run short_table short_series_error (always optimal_answer)
     dump_succeeds "dumps" "lp_files"
     "case2_es_charger_limited_BEV_dumb").1
  = (Case1.run short_table_charging3 short_series_error
       (always optimal_answer) dump_succeeds "dumps" "lp_files"
       "case2_es_charger_limited_BEV_dumb").1.
Proof.
  destruct (charging_series_is_unused short_table
              short_table_charging3 short_series_error
              (always optimal_answer) dump_succeeds "dumps" "lp_files"
              "case2_es_charger_limited_BEV_dumb"
              [0; 1]%Q [0; 10]%Q [5; 5]%Q [0.5; 0]%Q [0; 11]%Q [3; 3]%Q
              eq_refl eq_refl eq_refl eq_refl eq_refl
              eq_refl eq_refl eq_refl eq_refl eq_refl) as (Hout & _).
  exact Hout.
Defined.

(** ** Failing library calls *)

Section Case1Failures.
Import Case1.
Variable input_table : DataFrame.
Variable Model_raises : EnergySystem → option exn.
Variable model_solve : OpModel → string → bool → result SolverResults.
Variable dump_raises : string → string → EnergySystem → option exn.
Variables dump_path lp_file_path dump_filename : string.
Variables at_home pv load consumption charging : Series.
Hypothesis H_at_home : input_table !! "BEV_at_home" = Some at_home.
Hypothesis H_pv : input_table !! "PV_kW" = Some pv.
Hypothesis H_load : input_table !! "Load_kW" = Some load.
Hypothesis H_consumption : input_table !! "consumption" = Some consumption.
Hypothesis H_charging : input_table !! "charging_power_kW" = Some charging.

(** X18: what a failing library call does to the run.  An exception of
    [Model(es)] ends the run as it is: no model is stored, the solve stage
    is not entered.  Of the exceptions of [model.solve], only a
    [RuntimeError] is caught: its text is printed and the run ends in
    [SystemExit]; any other ends the run as it is, with nothing printed.
    In all three cases nothing is dumped and the energy system has no
    results. *)
Theorem library_failures_end_the_run :
  let out := run input_table Model_raises model_solve dump_raises dump_path
               lp_file_path dump_filename in
  let built := es_built at_home pv load consumption in
  let compiled := case1_model at_home pv load consumption in
  (∀ x, Model_raises built = Some x →
     out.1 = Raise x
     ∧ model (self out.2) = None
     ∧ ("Solve the optimization problem" ∉ logged out.2)
     ∧ printed out.2 = [] ∧ dumped out.2 = []
     ∧ es (self out.2) = Some built)
  ∧ (∀ msg, Model_raises built = None →
     model_solve compiled "cbc" false = Raise (RuntimeError msg) →
     out.1 = Raise SystemExit
     ∧ printed out.2 = [msg] ∧ dumped out.2 = []
     ∧ es (self out.2) = Some built)
  ∧ (∀ x, Model_raises built = None →
     model_solve compiled "cbc" false = Raise x →
     (∀ msg, x ≠ RuntimeError msg) →
     out.1 = Raise x
     ∧ printed out.2 = [] ∧ dumped out.2 = []
     ∧ es (self out.2) = Some built).
Proof.
  cbv zeta. split; [|split].
  - intros x HM.
    rewrite (run_compile_raises input_table Model_raises model_solve
               dump_raises dump_path lp_file_path dump_filename
               at_home pv load consumption charging
               H_at_home H_pv H_load H_consumption H_charging x HM).
    cbn [fst snd self logged printed dumped]. unfold case1_self.
    cbn [model es].
    split; [done|]. split; [done|]. split; [|done].
    unfold log_until_compile. rewrite !elem_of_cons, elem_of_nil.
    intros H. repeat (destruct H as [H|H]; [discriminate H|]). done.
  - intros msg HM HS.
    by rewrite (run_solver_raises input_table Model_raises model_solve
                  dump_raises dump_path lp_file_path dump_filename
                  at_home pv load consumption charging
                  H_at_home H_pv H_load H_consumption H_charging _ HM HS).
  - intros x HM HS Hx.
    rewrite (run_solver_raises input_table Model_raises model_solve
               dump_raises dump_path lp_file_path dump_filename
               at_home pv load consumption charging
               H_at_home H_pv H_load H_consumption H_charging _ HM HS).
    destruct x; try done. by destruct (Hx msg).
Qed.

End Case1Failures.

(** On the two-row table the compile step of the examples fails, and the
    run ends there. *)
Lemma library_failures_end_the_run_witness :
  (Case1.run short_table short_series_error (always optimal_answer)
     dump_succeeds "dumps" "lp_files"
     "case2_es_charger_limited_BEV_dumb").1
  = Raise (External "IndexError").
Proof.
  destruct (library_failures_end_the_run short_table short_series_error
              (always optimal_answer) dump_succeeds "dumps" "lp_files"
              "case2_es_charger_limited_BEV_dumb"
              [0; 1]%Q [0; 10]%Q [5; 5]%Q [0.5; 0]%Q [0; 11]%Q
              eq_refl eq_refl eq_refl eq_refl eq_refl) as (Hcompile & _).
  destruct (Hcompile (External "IndexError")) as (Hout & _).
  - vm_compute. reflexivity.
  - exact Hout.
Defined.
